(** * Cosmic Research Helper: the scoring engine and its data normalisation

    A shallow embedding of the TypeScript source (the [DataRate] and
    [MissionTable] components with the two edit handlers of a row, and the
    parsers [parseMissionRewards] and [parseCosmoToolData]) together with
    the properties stated about them.

    Numbers.  A JavaScript number is modelled by [num]: [NaN], the two
    infinities, or a finite value carried as an exact rational.  Finite
    results of arithmetic are kept in lowest terms, so that a computed
    number can be compared by [=] with a literal.  The rounding of IEEE
    doubles and the sign of zero are not modelled.

    Objects.  An object used as a dictionary is a [gmap]; a record whose
    fields may be absent has [option] fields; a property read that finds
    nothing is [None] (JavaScript's [undefined]). *)

From Stdlib Require Import QArith Lqa Ascii String Sorting.Sorted Sorting.Permutation.
From stdpp Require Import gmap strings list fin_maps sorting.

Local Open Scope string_scope.

(** ** JavaScript numbers *)

Inductive num : Type :=
  | NaN
  | NegInf
  | Fin (q : Q)
  | PosInf.

(** A finite number, in lowest terms. *)
Definition fin (q : Q) : num := Fin (Qred q).

Definition ofZ (z : Z) : num := Fin (inject_Z z).

Definition isNaN (a : num) : bool :=
  match a with NaN => true | _ => false end.

Definition is_fin (a : num) : Prop :=
  match a with Fin _ => True | _ => False end.

Definition add (a b : num) : num :=
  match a, b with
  | NaN, _ | _, NaN => NaN
  | PosInf, NegInf | NegInf, PosInf => NaN
  | PosInf, _ | _, PosInf => PosInf
  | NegInf, _ | _, NegInf => NegInf
  | Fin x, Fin y => fin (x + y)
  end.

Definition sub (a b : num) : num :=
  match a, b with
  | NaN, _ | _, NaN => NaN
  | PosInf, PosInf | NegInf, NegInf => NaN
  | PosInf, _ | _, NegInf => PosInf
  | NegInf, _ | _, PosInf => NegInf
  | Fin x, Fin y => fin (x - y)
  end.

(** An infinity scaled by a finite factor: the sign of the factor decides,
    and a zero factor gives [NaN]. *)
Definition scale_inf (positive : bool) (x : Q) : num :=
  match (x ?= 0)%Q with
  | Eq => NaN
  | Gt => if positive then PosInf else NegInf
  | Lt => if positive then NegInf else PosInf
  end.

Definition mul (a b : num) : num :=
  match a, b with
  | NaN, _ | _, NaN => NaN
  | Fin x, Fin y => fin (x * y)
  | Fin x, PosInf | PosInf, Fin x => scale_inf true x
  | Fin x, NegInf | NegInf, Fin x => scale_inf false x
  | PosInf, PosInf | NegInf, NegInf => PosInf
  | PosInf, NegInf | NegInf, PosInf => NegInf
  end.

(** Division; a zero divisor is taken as [+0]. *)
Definition div (a b : num) : num :=
  match a, b with
  | NaN, _ | _, NaN => NaN
  | Fin x, Fin y =>
      if Qeq_bool y 0 then
        match (x ?= 0)%Q with Eq => NaN | Gt => PosInf | Lt => NegInf end
      else fin (x / y)
  | Fin _, _ => Fin 0
  | PosInf, Fin y => if Qle_bool 0 y then PosInf else NegInf
  | NegInf, Fin y => if Qle_bool 0 y then NegInf else PosInf
  | _, _ => NaN
  end.

(** [a <= b]; false as soon as one side is [NaN]. *)
Definition leb (a b : num) : bool :=
  match a, b with
  | NaN, _ | _, NaN => false
  | NegInf, _ | _, PosInf => true
  | Fin x, Fin y => Qle_bool x y
  | _, _ => false
  end.

(** [a >= b] *)
Definition geb (a b : num) : bool := leb b a.

(** [a < b] *)
Definition ltb (a b : num) : bool :=
  match a, b with
  | NaN, _ | _, NaN => false
  | Fin x, Fin y => negb (Qle_bool y x)
  | NegInf, NegInf | PosInf, PosInf => false
  | NegInf, _ | _, PosInf => true
  | _, _ => false
  end.

(** [a === b] on numbers *)
Definition strict_eq (a b : num) : bool :=
  match a, b with
  | Fin x, Fin y => Qeq_bool x y
  | NegInf, NegInf | PosInf, PosInf => true
  | _, _ => false
  end.

(** [Math.max(a, b)] and [Math.min(a, b)] *)
Definition Math_max (a b : num) : num :=
  match a, b with
  | NaN, _ | _, NaN => NaN
  | _, _ => if leb a b then b else a
  end.

Definition Math_min (a b : num) : num :=
  match a, b with
  | NaN, _ | _, NaN => NaN
  | _, _ => if leb a b then a else b
  end.

(** [Math.max(...xs, d)] *)
Definition Math_max_list (xs : list num) (d : num) : num :=
  foldr Math_max d xs.

(** Truthiness of a number: everything but [NaN] and zero. *)
Definition truthy (a : num) : bool :=
  match a with
  | NaN => false
  | Fin q => negb (Qeq_bool q 0)
  | _ => true
  end.

(** [v || d] where [v] is a number or [undefined] *)
Definition or_default (v : option num) (d : num) : num :=
  match v with
  | Some a => if truthy a then a else d
  | None => d
  end.

(** The integer a number is, if it is one. *)
Definition as_integer (a : num) : option Z :=
  match a with
  | Fin q =>
      let r := Qred q in
      if decide (Qden r = 1%positive) then Some (Qnum r) else None
  | _ => None
  end.

(** [arr[i]] for a number [i]: an element only at an integer index in range. *)
Definition array_get {A} (arr : list A) (i : num) : option A :=
  match as_integer i with
  | Some n => if decide (0 ≤ n)%Z then arr !! Z.to_nat n else None
  | None => None
  end.

(** ** [DataRate] *)

(** [Object.values(o)]; the order of the values plays no role in what
    follows. *)
Definition Object_values {A} (o : gmap string A) : list A :=
  (map_to_list o).*2.

(** Array of data analysis rates based on completed research levels *)
Definition dataRates : list num :=
  ofZ <$> [0; 50; 50; 100; 100; 150; 150; 150; 150; 150; 150; 150]%Z.

(** [Object.values(levels).filter(level => level >= 9).length] *)
Definition completedTiers (levels : gmap string num) : nat :=
  length (filter (λ level, geb level (ofZ 9) = true) (Object_values levels)).

(** [dataRates[completedTiers] || 0], the value handed to [setDataRate] *)
Definition DataRate (levels : gmap string num) : num :=
  or_default (dataRates !! completedTiers levels) (ofZ 0).

(** ** [MissionTable] *)

Inductive tier : Type := I | II | III | IV.

Definition tiers : list tier := [I; II; III; IV].

(** The property name of a tier, as in [research[tier]]. *)
Definition tier_key (t : tier) : string :=
  match t with I => "I" | II => "II" | III => "III" | IV => "IV" end.

Record ResearchValues : Type := {
  required : tier → list num;
  max : tier → list num;
}.

(** Mission ids are integers; [missionProgress] is keyed by them. *)
Record MissionDisplay : Type := {
  id : Z;
  name : string;
  cosmocredits : num;
  lunarcredits : num;
  research1 : num;
  research2 : num;
  research3 : num;
  research4 : num;
  jobAbbreviation : string;
  missionClass : num;
  isCritical : bool;
}.

(** An entry of [missionProgress].  The declared type is
    [{ rank: string; time: number }]; an entry built by spreading may lack
    a field, so both are optional here. *)
Record Progress : Type := {
  rank : option string;
  time : option num;
}.

(** A JavaScript value as far as a property read needs it: a number,
    [undefined], or some object (a function is one). *)
Inductive value : Type :=
  | VUndefined
  | VNumber (n : num)
  | VObject.

Definition ToNumber (v : value) : num :=
  match v with
  | VNumber n => n
  | VUndefined | VObject => NaN
  end.

(** [v ?? d] *)
Definition nullish (v : value) (d : num) : value :=
  match v with
  | VUndefined => VNumber d
  | _ => v
  end.

(** The property names every object literal inherits from
    [Object.prototype]; each of them holds a function or an object. *)
Definition Object_prototype : list string :=
  [ "constructor"; "hasOwnProperty"; "isPrototypeOf"; "propertyIsEnumerable";
    "toLocaleString"; "toString"; "valueOf"; "__proto__";
    "__defineGetter__"; "__defineSetter__"; "__lookupGetter__";
    "__lookupSetter__" ].

(** [o[k]] on an object literal [o] with numeric own properties: the own
    property if there is one, else what the prototype holds. *)
Definition get (o : gmap string num) (k : string) : value :=
  match o !! k with
  | Some n => VNumber n
  | None => if bool_decide (k ∈ Object_prototype) then VObject else VUndefined
  end.

(** The property key a rank is read with; an absent rank reads the key
    ["undefined"]. *)
Definition rank_key (r : option string) : string :=
  match r with Some s => s | None => "undefined" end.

Definition multipliers : gmap string num :=
  {[ "none" := ofZ 0; "bronze" := ofZ 1; "silver" := ofZ 4; "gold" := ofZ 5 ]}.

(** [{ rank: "bronze", time: 1 }] *)
Definition default_progress : Progress :=
  {| rank := Some "bronze"; time := Some (ofZ 1) |}.

(** [progress.time] read as a number ([undefined] converts to [NaN]; this
    agrees with [!== 1] and with the division by it). *)
Definition time_num (p : Progress) : num := default NaN (time p).

Record Scored : Type := {
  mission : MissionDisplay;
  score : num;
  r1 : num;
  r2 : num;
  r3 : num;
  r4 : num;
  progress : Progress;
  scorePerSecond : num;
}.

Section MissionTable.
Variable researchValues : ResearchValues.
Variable level : num.
Variable research : gmap string num.
Variable missionProgress : gmap Z Progress.
Variable dataRate : num.

Definition req (t : tier) : num :=
  or_default (array_get (required researchValues t) (sub level (ofZ 1))) (ofZ 0).

Definition maxVal (t : tier) : num :=
  or_default (array_get (max researchValues t) (sub level (ofZ 1))) (ofZ 0).

Definition current (t : tier) : num :=
  or_default (research !! tier_key t) (ofZ 0).

Definition remainingRequired (t : tier) : num :=
  Math_max (sub (req t) (current t)) (ofZ 0).

Definition remainingMax (t : tier) : num :=
  Math_max (Math_min (sub (maxVal t) (current t)) (sub (maxVal t) (req t))) (ofZ 0).

Definition maxRemainingRequired : num :=
  Math_max_list (remainingRequired <$> tiers) (ofZ 1).

Definition maxRemainingMax : num :=
  Math_max_list (remainingMax <$> tiers) (ofZ 1).

(** [totalImportance[i + 1]] for [tier = tiers[i]] *)
Definition totalImportance (t : tier) : num :=
  let importanceRequired := div (remainingRequired t) maxRemainingRequired in
  let importanceMax := div (remainingMax t) maxRemainingMax in
  add importanceRequired (mul (Fin (1 # 20)) importanceMax).

(** [missionProgress[m.id] || { rank: "bronze", time: 1 }]; the keys of
    [missionProgress] are the decimal strings of mission ids. *)
Definition progress_of (m : MissionDisplay) : Progress :=
  default default_progress (missionProgress !! id m).

(** [multipliers[progress.rank] ?? 1] *)
Definition bonus_of (p : Progress) : value :=
  nullish (get multipliers (rank_key (rank p))) (ofZ 1).

(** [(100+dataRate) / 100] *)
Definition dataRateFactor : num := div (add (ofZ 100) dataRate) (ofZ 100).

(** The body of [missions.map((m, _) => ...)]. *)
Definition scoreMission (m : MissionDisplay) : Scored :=
  let progress := progress_of m in
  let bonus := ToNumber (bonus_of progress) in
  let r1 := if isCritical m then research1 m
            else Math_min (mul (mul (research1 m) bonus) dataRateFactor)
                          (add (remainingRequired I) (remainingMax I)) in
  let r2 := if isCritical m then research2 m
            else Math_min (mul (mul (research2 m) bonus) dataRateFactor)
                          (add (remainingRequired III) (remainingMax II)) in
  let r3 := if isCritical m then research3 m
            else Math_min (mul (mul (research3 m) bonus) dataRateFactor)
                          (add (remainingRequired III) (remainingMax III)) in
  let r4 := if isCritical m then research4 m
            else Math_min (mul (mul (research4 m) bonus) dataRateFactor)
                          (add (remainingRequired IV) (remainingMax IV)) in
  let score :=
    add (add (add (mul r1 (totalImportance I)) (mul r2 (totalImportance II)))
             (mul r3 (totalImportance III)))
        (mul r4 (totalImportance IV)) in
  let scorePerSecond := div score (time_num progress) in
  {| mission := m; score := score; r1 := r1; r2 := r2; r3 := r3; r4 := r4;
     progress := progress; scorePerSecond := scorePerSecond |}.
End MissionTable.

(** The comparator handed to [sort]. *)
Definition compareFn (a b : Scored) : num :=
  let ta := time_num (progress a) in
  let tb := time_num (progress b) in
  (* First prioritize missions with time != 1 *)
  if negb (strict_eq ta (ofZ 1)) && strict_eq tb (ofZ 1) then ofZ (-1)
  else if strict_eq ta (ofZ 1) && negb (strict_eq tb (ofZ 1)) then ofZ 1
  (* Then sort by scorePerSecond *)
  else sub (scorePerSecond b) (scorePerSecond a).

(** [Array.prototype.sort(cmp)] is stable, and an element stays in front of
    another unless the comparator returns a positive number for the pair
    (a [NaN] result counts as zero).  For a consistent comparator every
    stable sorting algorithm returns the same array; insertion sort stands
    for it. *)
Section Sort.
Context {A : Type} (cmp : A → A → num).

Fixpoint sort_insert (x : A) (l : list A) : list A :=
  match l with
  | [] => [x]
  | y :: l' =>
      if ltb (ofZ 0) (cmp x y) then y :: sort_insert x l'
      else x :: l
  end.

Definition sort (l : list A) : list A := foldr sort_insert [] l.
End Sort.

(** [missionsWithScores]: the rows of the table, in display order. *)
Definition missionsWithScores (researchValues : ResearchValues) (level : num)
    (research : gmap string num) (missionProgress : gmap Z Progress)
    (dataRate : num) (missions : list MissionDisplay) : list Scored :=
  sort compareFn
    (scoreMission researchValues level research missionProgress dataRate <$> missions).

(** [MissionTable] renders nothing while the requirement table is not
    loaded ([if (!researchValues) return null]). *)
Definition MissionTable (researchValues : option ResearchValues) (level : num)
    (research : gmap string num) (missionProgress : gmap Z Progress)
    (dataRate : num) (missions : list MissionDisplay) : option (list Scored) :=
  rv ← researchValues;
  Some (missionsWithScores rv level research missionProgress dataRate missions).

(** *** The two edit handlers of a row *)

(** The rank [<select>]:
    [{ ...prev, [id]: { ...(prev[id] || { rank: 'bronze', time: 1 }), rank: v } }] *)
Definition onRankChange (mission_id : Z) (v : string)
    (prev : gmap Z Progress) : gmap Z Progress :=
  let old := default default_progress (prev !! mission_id) in
  <[mission_id := {| rank := Some v; time := time old |}]> prev.

(** The time [<input>], with [v = Number(e.target.value)]:
    [{ ...prev, [id]: { ...prev[id], time: v } }]; spreading [undefined]
    contributes no field. *)
Definition onTimeChange (mission_id : Z) (v : num)
    (prev : gmap Z Progress) : gmap Z Progress :=
  let old_rank := p ← prev !! mission_id; rank p in
  <[mission_id := {| rank := old_rank; time := Some v |}]> prev.

(** ** Normalisation of the raw tables *)

Module MissionReward.
Record t : Type := {
  id : num;
  cosmocredits : num;
  lunarcredits : num;
  (** the properties [1], [2], [3], [4] of [researchRewards] *)
  researchRewards : gmap Z num;
}.
End MissionReward.

(** A [Map<number, V>]: entries in insertion order, keys compared with
    SameValueZero. *)
Definition same_value_zero (a b : num) : bool :=
  match a, b with
  | NaN, NaN => true
  | _, _ => strict_eq a b
  end.

Fixpoint Map_set {V} (k : num) (v : V) (m : list (num * V)) : list (num * V) :=
  match m with
  | [] => [(k, v)]
  | (k', v') :: m' =>
      if same_value_zero k' k then (k', v) :: m' else (k', v') :: Map_set k v m'
  end.

Section Parse.
(** [Number(s)] on a string is the language's own conversion; the parsers
    are embedded for any such function. *)
Variable StringToNumber : string → num.

(** [Number(row[k])]: a missing cell is [undefined], which converts to
    [NaN]. *)
Definition Number_cell (row : list string) (k : nat) : num :=
  match row !! k with
  | Some s => StringToNumber s
  | None => NaN
  end.

(** One turn of [for (const [type, qty] of pairs)].  A type in range that
    is not an integer names a property other than [1..4], which nothing
    reads; the four rewards are unchanged then. *)
Definition add_reward (rewards : gmap Z num) (pair : num * num) : gmap Z num :=
  let '(type, qty) := pair in
  if geb type (ofZ 1) && leb type (ofZ 4) && negb (isNaN qty) then
    match as_integer type with
    | Some n => <[n := add (default NaN (rewards !! n)) qty]> rewards
    | None => rewards
    end
  else rewards.

(** The body of the loop of [parseMissionRewards]. *)
Definition parseMissionReward (row : list string) : MissionReward.t :=
  let id := Number_cell row 0 in
  let cosmocredits := or_default (Some (Number_cell row 4)) (ofZ 0) in
  let lunarcredits := or_default (Some (Number_cell row 5)) (ofZ 0) in
  let researchRewards : gmap Z num :=
    {[ 1%Z := ofZ 0; 2%Z := ofZ 0; 3%Z := ofZ 0; 4%Z := ofZ 0 ]} in
  let pairs :=
    [ (Number_cell row 8, Number_cell row 9);
      (Number_cell row 11, Number_cell row 12);
      (Number_cell row 14, Number_cell row 15) ] in
  {| MissionReward.id := id;
     MissionReward.cosmocredits := cosmocredits;
     MissionReward.lunarcredits := lunarcredits;
     MissionReward.researchRewards := foldl add_reward researchRewards pairs |}.

Definition parseMissionRewards (data : list (list string))
    : list (num * MissionReward.t) :=
  foldl (λ map row,
           let reward := parseMissionReward row in
           Map_set (MissionReward.id reward) reward map)
        [] data.

(** [row.slice(start, start + 9).map(Number)] *)
Definition slice_numbers (row : list string) (start : nat) : list num :=
  StringToNumber <$> take 9 (drop start row).

(** [parseCosmoToolData]; on an empty table [lastRow] is [undefined] and
    [lastRow.slice] throws a [TypeError], which is [None] here. *)
Definition parseCosmoToolData (data : list (list string)) : option ResearchValues :=
  lastRow ← last data;
  let index (t : tier) : nat :=
    match t with I => 0 | II => 1 | III => 2 | IV => 3 end in
  Some {| required := λ t, slice_numbers lastRow (2 + index t * 18);
          max := λ t, slice_numbers lastRow (10 + index t * 18) |}.
End Parse.

(** A conversion to run the parsers with: [StringToNumber] on the empty
    string (which is [0]) and on decimal integers with an optional minus
    sign; every other string is taken as not numeric. *)
Fixpoint digits_value (acc : Z) (s : string) : option Z :=
  match s with
  | EmptyString => Some acc
  | String c s' =>
      let n := Ascii.nat_of_ascii c in
      if decide (48 ≤ n ∧ n ≤ 57)%nat
      then digits_value (10 * acc + Z.of_nat (n - 48)) s'
      else None
  end.

Definition decimal_integer (s : string) : num :=
  match s with
  | EmptyString => ofZ 0
  | String "-"%char (String _ _ as s') =>
      match digits_value 0 s' with Some z => fin (inject_Z (- z)) | None => NaN end
  | String "-"%char EmptyString => NaN
  | _ =>
      match digits_value 0 s with Some z => ofZ z | None => NaN end
  end.

(** ** Notions the properties are stated with *)

(** Numbers that denote the same JavaScript number. *)
Definition same_num (a b : num) : Prop :=
  match a, b with
  | NaN, NaN | NegInf, NegInf | PosInf, PosInf => True
  | Fin x, Fin y => (x == y)%Q
  | _, _ => False
  end.

Definition sample_mission (i : Z) (critical : bool) (y1 y2 y3 y4 : Z) : MissionDisplay :=
  {| id := i; name := "Sample mission"; cosmocredits := ofZ 10;
     lunarcredits := ofZ 5; research1 := ofZ y1; research2 := ofZ y2;
     research3 := ofZ y3; research4 := ofZ y4; jobAbbreviation := "CRP";
     missionClass := ofZ 1; isCritical := critical |}.

(** A requirement table with one level, given per tier as (required, max). *)
Definition sample_table (t1 t2 t3 t4 : Z * Z) : ResearchValues :=
  let pick (t : tier) :=
    match t with I => t1 | II => t2 | III => t3 | IV => t4 end in
  {| required := λ t, [ofZ (pick t).1]; max := λ t, [ofZ (pick t).2] |}.

Definition known_ranks : list string := ["none"; "bronze"; "silver"; "gold"].

(** [D] is the maximum of [f] over the four tiers, floored at 1 (as
    [Math.max] has it: [NaN] as soon as one value is). *)
Definition floored_maximum (f : tier → num) (D : num) : Prop :=
  ((∃ t, f t = NaN) ∧ D = NaN) ∨
  ((∀ t, leb (f t) D = true) ∧ leb (ofZ 1) D = true ∧
   (D = ofZ 1 ∨ ∃ t, D = f t)).

Definition finite_yields (m : MissionDisplay) : Prop :=
  is_fin (research1 m) ∧ is_fin (research2 m) ∧
  is_fin (research3 m) ∧ is_fin (research4 m).

(** Twelve jobs at level 9. *)
Definition twelve_jobs : gmap string num :=
  list_to_map ((λ job, (job, ofZ 9)) <$>
    ["CRP"; "BSM"; "ARM"; "GSM"; "LTW"; "WVR"; "ALC"; "CUL"; "MIN"; "BTN";
     "FSH"; EmptyString]).

(** [progress.time === 1]: the row carries the default time. *)
Definition unmeasured (s : Scored) : bool :=
  strict_eq (time_num (progress s)) (ofZ 1).

(** The order of the table: rows with a time other than 1 first, and
    within either group the larger [scorePerSecond] first. *)
Definition ranked_before (a b : Scored) : Prop :=
  (unmeasured a = true → unmeasured b = true) ∧
  (unmeasured a = unmeasured b →
   geb (scorePerSecond a) (scorePerSecond b) = true).

Definition has_rate (s : Scored) : Prop := isNaN (scorePerSecond s) = false.

(** The inputs of the data model: finite numbers in the requirement table
    and in the research counts, and a progress entry with a rank whose
    multiplier is a number and a time above 0. *)
Definition finite_table (rv : ResearchValues) : Prop :=
  ∀ t, Forall is_fin (required rv t) ∧ Forall is_fin (max rv t).

Definition finite_counts (research : gmap string num) : Prop :=
  ∀ k v, research !! k = Some v → is_fin v.

Definition measurable (p : Progress) : Prop :=
  is_fin (ToNumber (bonus_of p)) ∧ ∃ q, time p = Some (Fin q) ∧ (0 < q)%Q.

(** The first column of the [required] and of the [max] block of a tier. *)
Definition required_column (t : tier) : nat :=
  match t with I => 2 | II => 20 | III => 38 | IV => 56 end.

Definition max_column (t : tier) : nat :=
  match t with I => 10 | II => 28 | III => 46 | IV => 64 end.

(** A requirement table of one row whose cell for tier I, level 1, is not
    a number. *)
Definition malformed_table : list (list string) :=
  [ (["1"; "Cosmic tool"; "n/a"] ++ replicate 70 "7")%list ].

(** ** The rest of the application *)

(** *** [parseClassJobs] and the missions of the catalog *)

Fixpoint Map_get {V} (k : num) (m : list (num * V)) : option V :=
  match m with
  | [] => None
  | (k', v') :: m' => if same_value_zero k' k then Some v' else Map_get k m'
  end.

Module ClassJob.
Record t : Type := {
  id : num;
  (** [row[2]] and [row[30]]: [undefined] on a short row *)
  abbreviation : option string;
  name : option string;
}.
End ClassJob.

(** The objects pushed to [missionDisplays], as the loader builds them: the
    id is whatever [Number] gives, and a cell read or a property read that
    finds nothing leaves [undefined]. *)
Module Loaded.
Record MissionDisplay : Type := {
  id : num;
  name : option string;
  cosmocredits : num;
  lunarcredits : num;
  research1 : option num;
  research2 : option num;
  research3 : option num;
  research4 : option num;
  jobAbbreviation : option string;
  missionClass : num;
  isCritical : bool;
}.
End Loaded.

Section Load.
Variable StringToNumber : string → num.

Definition parseClassJobs (data : list (list string)) : list (num * ClassJob.t) :=
  foldl (λ map row,
           if geb (Number_cell StringToNumber row 9) (ofZ 0) then
             let id := Number_cell StringToNumber row 0 in
             Map_set id {| ClassJob.id := id;
                           ClassJob.abbreviation := row !! 2%nat;
                           ClassJob.name := row !! 30%nat |} map
           else map)
        [] data.

(** [Array.from(jobMap.values()).map(j => j.abbreviation)] *)
Definition jobList (jobMap : list (num * ClassJob.t)) : list (option string) :=
  (λ entry, ClassJob.abbreviation entry.2) <$> jobMap.

(** One turn of the loop over [missionUnitRaw]: [None] is [continue]. *)
Definition loadMission (jobMap : list (num * ClassJob.t))
    (rewardMap : list (num * MissionReward.t)) (row : list string)
    : option Loaded.MissionDisplay :=
  let id := Number_cell StringToNumber row 0 in
  let name := row !! 1%nat in
  let rawJobId := Number_cell StringToNumber row 3 in
  let rewardId := Number_cell StringToNumber row 9 in
  let missionClass := Number_cell StringToNumber row 7 in
  let correctedJobId := sub rawJobId (ofZ 1) in
  let isCritical := negb (strict_eq (Number_cell StringToNumber row 13) (ofZ 0)) in
  match Map_get correctedJobId jobMap, Map_get rewardId rewardMap with
  | Some job, Some reward =>
      Some {| Loaded.id := id;
              Loaded.name := name;
              Loaded.cosmocredits := MissionReward.cosmocredits reward;
              Loaded.lunarcredits := MissionReward.lunarcredits reward;
              Loaded.research1 := MissionReward.researchRewards reward !! 1%Z;
              Loaded.research2 := MissionReward.researchRewards reward !! 2%Z;
              Loaded.research3 := MissionReward.researchRewards reward !! 3%Z;
              Loaded.research4 := MissionReward.researchRewards reward !! 4%Z;
              Loaded.jobAbbreviation := ClassJob.abbreviation job;
              Loaded.missionClass := missionClass;
              Loaded.isCritical := isCritical |}
  | _, _ => None
  end.

(** [missionDisplays], from the raw tables as [fetchData] has them. *)
Definition missionDisplays (classJobRaw missionUnitRaw missionRewardRaw
    : list (list string)) : list Loaded.MissionDisplay :=
  let jobMap := parseClassJobs classJobRaw in
  let rewardMap := parseMissionRewards StringToNumber missionRewardRaw in
  omap (loadMission jobMap rewardMap) missionUnitRaw.
End Load.

(** *** [App]: what is derived from the state at each render *)

(** [missions.filter(m => m.jobAbbreviation === activeJob)] *)
Definition displayedMissions (missions : list MissionDisplay) (activeJob : string)
    : list MissionDisplay :=
  filter (λ m, jobAbbreviation m = activeJob) missions.

(** [jobLevels[activeJob] || 1] *)
Definition App_level (jobLevels : gmap string num) (activeJob : string) : num :=
  or_default (jobLevels !! activeJob) (ofZ 1).

(** [{ I: 0, II: 0, III: 0, IV: 0 }] *)
Definition no_research : gmap string num :=
  {[ "I" := ofZ 0; "II" := ofZ 0; "III" := ofZ 0; "IV" := ofZ 0 ]}.

(** [jobResearch[activeJob] || { I: 0, II: 0, III: 0, IV: 0 }] *)
Definition App_research (jobResearch : gmap string (gmap string num))
    (activeJob : string) : gmap string num :=
  default no_research (jobResearch !! activeJob).

(** [setJobLevels(prev => ({ ...prev, [activeJob]: newLevel }))] *)
Definition setLevel (activeJob : string) (newLevel : num)
    (prev : gmap string num) : gmap string num :=
  <[activeJob := newLevel]> prev.

(** [setJobResearch(prev => ({ ...prev, [activeJob]: newResearch }))] *)
Definition setResearch (activeJob : string) (newResearch : gmap string num)
    (prev : gmap string (gmap string num)) : gmap string (gmap string num) :=
  <[activeJob := newResearch]> prev.

(** [handleCurrentChange] of [ResearchSummary], with
    [numericValue = Number(value)] and [research] the counts of the active
    job as rendered. *)
Definition handleCurrentChange (activeJob : string) (t : tier) (numericValue : num)
    (jobResearch : gmap string (gmap string num)) : gmap string (gmap string num) :=
  let research := App_research jobResearch activeJob in
  let newResearch := <[tier_key t := numericValue]> research in
  setResearch activeJob newResearch jobResearch.

(** [required !== 0 || max !== 0] *)
Definition tier_active (rv : ResearchValues) (level : num) (t : tier) : bool :=
  negb (strict_eq (req rv level t) (ofZ 0)) || negb (strict_eq (maxVal rv level t) (ofZ 0)).

(** [['I', 'II', 'III', 'IV'].filter(tier => ...)] *)
Definition unlockedTiers (researchValues : option ResearchValues) (level : num)
    : list tier :=
  match researchValues with
  | None => []
  | Some rv => filter (λ t, tier_active rv level t = true) tiers
  end.

(** *** [ResearchSummary] *)

Record SummaryRow : Type := {
  row_tier : tier;
  row_current : num;
  row_required : num;
  row_max : num;
  (** the row is highlighted *)
  row_completed : bool;
}.

(** The body of [['I', 'II', 'III', 'IV'].map((tier) => ...)]; [None] is
    the [null] returned for a tier without requirement and maximum. *)
Definition summaryRow (rv : ResearchValues) (level : num)
    (research : gmap string num) (t : tier) : option SummaryRow :=
  let required := req rv level t in
  let max := maxVal rv level t in
  if strict_eq required (ofZ 0) && strict_eq max (ofZ 0) then None
  else
    let current := current research t in
    let completed := geb current required && ltb (ofZ 0) required in
    Some {| row_tier := t; row_current := current; row_required := required;
            row_max := max; row_completed := completed |}.

Definition ResearchSummary (researchValues : option ResearchValues) (level : num)
    (research : gmap string num) : option (list SummaryRow) :=
  rv ← researchValues;
  Some (omap (summaryRow rv level research) tiers).

(** ** Notions the further properties are stated with *)

(** A number that is not negative. *)
Definition nonneg (a : num) : Prop := leb (ofZ 0) a = true.

(** A number whose finite value is in lowest terms. *)
Definition canonical (a : num) : Prop :=
  match a with
  | Fin q => Qred q = q
  | _ => True
  end.

(** What a reward slot adds to the research reward of type [n]: its
    quantity, if the slot names that type and the quantity is a number. *)
Definition slot_quantity (n : Z) (slot : num * num) : num :=
  let '(type, qty) := slot in
  if geb type (ofZ 1) && leb type (ofZ 4) && negb (isNaN qty)
     && bool_decide (as_integer type = Some n)
  then qty else ofZ 0.

(** The three reward slots of a row of the reward table. *)
Definition reward_slots (StringToNumber : string → num) (row : list string)
    : list (num * num) :=
  [ (Number_cell StringToNumber row 8, Number_cell StringToNumber row 9);
    (Number_cell StringToNumber row 11, Number_cell StringToNumber row 12);
    (Number_cell StringToNumber row 14, Number_cell StringToNumber row 15) ].

(** A reward object as the parser keeps it: exactly the properties 1 to 4,
    each in lowest terms. *)
Definition four_rewards (rewards : gmap Z num) : Prop :=
  ∀ n, (is_Some (rewards !! n) ↔ (1 ≤ n ≤ 4)%Z) ∧
       (∀ v, rewards !! n = Some v → canonical v).

(** A table folded into a map: a row is stored under its key when it is
    kept. *)
Definition store {R V} (keep : R → bool) (key : R → num) (val : R → V)
    (map : list (num * V)) (row : R) : list (num * V) :=
  if keep row then Map_set (key row) (val row) map else map.

(** No row of [rows] has the key [k]. *)
Definition no_row_with {R} (key : R → num) (k : num) (rows : list R) : Prop :=
  Forall (λ row, same_value_zero (key row) k = false) rows.

(** * Properties *)

(** ** Facts about [num] *)

Lemma fin_eq (x y : Q) : (x == y)%Q → fin x = fin y.
Proof. intros H. unfold fin. f_equal. by apply Qred_complete. Qed.

Lemma fin_zero (x : Q) : (x == 0)%Q → fin x = Fin 0.
Proof. intros H. by rewrite (fin_eq x 0 H). Qed.

Lemma sub_same (a a' b b' : num) :
  same_num a a' → same_num b b' → sub a b = sub a' b'.
Proof.
  destruct a, a', b, b'; simpl; try done.
  intros Ha Hb. apply fin_eq. by rewrite Ha, Hb.
Qed.

Lemma or_default_same (a : num) :
  isNaN a = false → same_num (or_default (Some a) (ofZ 0)) a.
Proof.
  destruct a as [| |q|]; simpl; try done. intros _.
  destruct (Qeq_bool q 0) eqn:Hq; simpl; [|reflexivity].
  apply Qeq_bool_iff in Hq. by rewrite Hq.
Qed.

Lemma Qle_bool_false (x y : Q) : Qle_bool x y = false → (y < x)%Q.
Proof.
  intros H. apply Qnot_le_lt. intros Hle.
  apply Qle_bool_iff in Hle. congruence.
Qed.

Lemma leb_refl (a : num) : isNaN a = false → leb a a = true.
Proof.
  destruct a; simpl; try done. intros _. apply Qle_bool_iff. apply Qle_refl.
Qed.

Lemma leb_trans (a b c : num) :
  leb a b = true → leb b c = true → leb a c = true.
Proof.
  destruct a, b, c; simpl; try done.
  rewrite !Qle_bool_iff. apply Qle_trans.
Qed.

Lemma leb_total (a b : num) :
  isNaN a = false → isNaN b = false → leb a b = true ∨ leb b a = true.
Proof.
  destruct a as [| |x|], b as [| |y|]; simpl; intros; try done; auto.
  rewrite !Qle_bool_iff. destruct (Qlt_le_dec x y); auto with qarith.
Qed.

(** The sign of a difference decides the order of its operands. *)
Lemma sub_not_positive (a b : num) :
  isNaN a = false → isNaN b = false →
  ltb (ofZ 0) (sub b a) = false → leb b a = true.
Proof.
  destruct a as [| |x|], b as [| |y|]; simpl; try done. intros _ _.
  rewrite negb_false_iff, !Qle_bool_iff, Qred_correct. unfold inject_Z. lra.
Qed.

Lemma sub_positive (a b : num) :
  ltb (ofZ 0) (sub b a) = true → leb a b = true.
Proof.
  destruct a as [| |x|], b as [| |y|]; simpl; try done.
  rewrite negb_true_iff, Qle_bool_iff. intros H%Qle_bool_false.
  rewrite Qred_correct in H. unfold inject_Z in H. lra.
Qed.

Lemma Math_max_ub (a b : num) :
  isNaN a = false → isNaN b = false →
  leb a (Math_max a b) = true ∧ leb b (Math_max a b) = true
  ∧ (Math_max a b = a ∨ Math_max a b = b).
Proof.
  intros Ha Hb.
  assert (Hm : Math_max a b = if leb a b then b else a) by by destruct a, b.
  rewrite Hm. destruct (leb a b) eqn:Hab.
  - split; [done|]. split; [by apply leb_refl | by right].
  - split; [by apply leb_refl|]. split; [|by left].
    destruct (leb_total a b Ha Hb); congruence.
Qed.

(** [Math.min(x, cap)] never exceeds [cap]. *)
Lemma Math_min_le_cap (x cap : num) : ltb cap (Math_min x cap) = false.
Proof.
  assert (Hrefl : ∀ q, negb (Qle_bool q q) = false).
  { intros q. apply negb_false_iff, Qle_bool_iff, Qle_refl. }
  destruct x as [| |x|], cap as [| |c|]; simpl; try done.
  destruct (Qle_bool x c) eqn:H; simpl; [by rewrite H | done].
Qed.

(** ** Facts about [sort] *)

Section SortFacts.
Context {A : Type} (cmp : A → A → num).

Lemma sort_insert_perm (x : A) (l : list A) : sort_insert cmp x l ≡ₚ x :: l.
Proof.
  induction l as [|y l IH]; cbn [sort_insert]; [done|].
  destruct (ltb (ofZ 0) (cmp x y)); [|done].
  rewrite IH. apply Permutation_swap.
Qed.

Lemma sort_perm (l : list A) : sort cmp l ≡ₚ l.
Proof.
  induction l as [|x l IH]; simpl; [done|].
  by rewrite sort_insert_perm, IH.
Qed.

(** [R] is the order the result is to have, [P] what the elements
    satisfy for the comparator to decide [R]. *)
Context (R : A → A → Prop) (P : A → Prop).
Hypothesis stay : ∀ x y, P x → P y → ltb (ofZ 0) (cmp x y) = false → R x y.
Hypothesis swap : ∀ x y, P x → P y → ltb (ofZ 0) (cmp x y) = true → R y x.
Hypothesis trans : ∀ x y z, P x → P y → P z → R x y → R y z → R x z.

Lemma sort_insert_sorted (x : A) (l : list A) :
  P x → Forall P l → StronglySorted R l →
  StronglySorted R (sort_insert cmp x l).
Proof.
  intros Hx. induction l as [|y l IH]; cbn [sort_insert]; intros HP HS.
  - repeat constructor.
  - apply Forall_cons in HP as [Hy HP].
    apply StronglySorted_cons in HS as [Hyl HS].
    destruct (ltb (ofZ 0) (cmp x y)) eqn:Hc.
    + apply StronglySorted_cons. split; [|by apply IH].
      rewrite sort_insert_perm. apply Forall_cons. split; [|done].
      by apply swap.
    + apply StronglySorted_cons. split.
      * apply Forall_cons. split; [by apply stay|].
        rewrite Forall_forall in *. intros z Hz.
        apply (trans x y z); auto.
      * by apply StronglySorted_cons.
Qed.

Lemma sort_sorted (l : list A) : Forall P l → StronglySorted R (sort cmp l).
Proof.
  induction l as [|x l IH]; simpl; intros HP.
  - constructor.
  - apply Forall_cons in HP as [Hx HP].
    apply sort_insert_sorted; [done| |by apply IH].
    by rewrite sort_perm.
Qed.
End SortFacts.

(** Two positions of a strongly sorted list are related. *)
Lemma StronglySorted_lookup {A} (R : A → A → Prop) (l : list A) (i j : nat) (a b : A) :
  StronglySorted R l → (i < j)%nat → l !! i = Some a → l !! j = Some b → R a b.
Proof.
  intros HS. revert i j. induction HS as [|x l HS IH Hx]; intros i j Hij Hi Hj.
  - by rewrite lookup_nil in Hi.
  - destruct j as [|j]; [lia|]. rewrite lookup_cons in Hj. simpl in Hj.
    destruct i as [|i].
    + simpl in Hi. injection Hi as <-.
      rewrite Forall_forall in Hx. apply Hx. by eapply list_elem_of_lookup_2.
    + simpl in Hi. apply (IH i j); [lia|done..].
Qed.

(** ** The rows of the table are the scored missions *)

Lemma elem_of_missionsWithScores rv level research mp dataRate missions s :
  s ∈ missionsWithScores rv level research mp dataRate missions ↔
  ∃ m, m ∈ missions ∧ s = scoreMission rv level research mp dataRate m.
Proof.
  unfold missionsWithScores. rewrite sort_perm, list_elem_of_fmap.
  split; intros (m & H1 & H2); eauto.
Qed.

(** ** Effective yield *)

(** What the four caps are wired to: tiers I, III and IV to their own
    remaining demand, tier II to the requirement of tier III and the
    headroom of tier II. *)
Lemma effective_yield_caps rv level research mp dataRate m :
  isCritical m = false →
  let s := scoreMission rv level research mp dataRate m in
  let rr := remainingRequired rv level research in
  let rm := remainingMax rv level research in
  ltb (add (rr I) (rm I)) (r1 s) = false ∧
  ltb (add (rr III) (rm II)) (r2 s) = false ∧
  ltb (add (rr III) (rm III)) (r3 s) = false ∧
  ltb (add (rr IV) (rm IV)) (r4 s) = false.
Proof.
  intros Hc. simpl. rewrite Hc. repeat split; apply Math_min_le_cap.
Qed.

(** C1 (cap correctness), evaluated where the code departs from it: tier
    II is complete (required 50, max 50, current 50), tier III still needs
    100, and a non-critical bronze mission yields 80 of tier II at data
    rate 0.  The remaining demand of tier II is 0, yet the effective
    tier-II yield is 80: its cap is read from the requirement of tier III. *)
Theorem tier_II_cap_reads_tier_III :
  let rv := sample_table (0, 0)%Z (50, 50)%Z (100, 100)%Z (0, 0)%Z in
  let research : gmap string num := {[ "II" := ofZ 50 ]} in
  let m := sample_mission 1 false 0 80 0 0 in
  let s := scoreMission rv (ofZ 1) research ∅ (ofZ 0) m in
  let cap_II := add (remainingRequired rv (ofZ 1) research II)
                    (remainingMax rv (ofZ 1) research II) in
  isCritical m = false ∧ cap_II = ofZ 0 ∧ r2 s = ofZ 80 ∧ ltb cap_II (r2 s) = true.
Proof. vm_compute. done. Qed.

(** C3 (critical invariance): in every row of the table whose mission is
    critical, the effective yield of each tier is the mission's base yield,
    whatever the progress entries (rank, time), the data rate, the
    requirement table, the level and the research counts are. *)
Theorem critical_yield_is_base_yield rv level research mp dataRate missions s :
  s ∈ missionsWithScores rv level research mp dataRate missions →
  isCritical (mission s) = true →
  r1 s = research1 (mission s) ∧ r2 s = research2 (mission s) ∧
  r3 s = research3 (mission s) ∧ r4 s = research4 (mission s).
Proof.
  intros (m & _ & ->)%elem_of_missionsWithScores. simpl. by intros ->.
Qed.

(** A critical mission with rank gold, time 7 and data rate 150 keeps its
    base yields 40, 30, 20, 10. *)
Lemma critical_yield_is_base_yield_witness :
  let rv := sample_table (100, 150)%Z (0, 0)%Z (0, 0)%Z (0, 0)%Z in
  let mp : gmap Z Progress := {[ 3%Z := {| rank := Some "gold"; time := Some (ofZ 7) |} ]} in
  let m := sample_mission 3 true 40 30 20 10 in
  let s := scoreMission rv (ofZ 1) ∅ mp (ofZ 150) m in
  isCritical (mission s) = true ∧
  r1 s = ofZ 40 ∧ r2 s = ofZ 30 ∧ r3 s = ofZ 20 ∧ r4 s = ofZ 10.
Proof.
  intros rv mp m s. split; [reflexivity|].
  apply (critical_yield_is_base_yield rv (ofZ 1) ∅ mp (ofZ 150) [m] s);
    [|reflexivity].
  apply elem_of_missionsWithScores. exists m. split; [|reflexivity].
  apply list_elem_of_here.
Defined.

(** ** Remaining demand *)

(** C4 (remaining demand): for a tier whose [required] and [max] entries at
    the current level are [rq] and [mx] and whose current count is [cur],
    all three numbers, the engine computes
    [remainingRequired = max(rq - cur, 0)] and
    [remainingMax = max(min(mx - cur, mx - rq), 0)]. *)
Theorem remaining_demand rv level research t rq mx cur :
  array_get (required rv t) (sub level (ofZ 1)) = Some rq →
  array_get (max rv t) (sub level (ofZ 1)) = Some mx →
  research !! tier_key t = Some cur →
  isNaN rq = false → isNaN mx = false → isNaN cur = false →
  remainingRequired rv level research t = Math_max (sub rq cur) (ofZ 0) ∧
  remainingMax rv level research t
    = Math_max (Math_min (sub mx cur) (sub mx rq)) (ofZ 0).
Proof.
  intros Hrq Hmx Hcur Nrq Nmx Ncur.
  unfold remainingRequired, remainingMax, req, maxVal, current.
  rewrite Hrq, Hmx, Hcur.
  pose proof (or_default_same rq Nrq) as Erq.
  pose proof (or_default_same mx Nmx) as Emx.
  pose proof (or_default_same cur Ncur) as Ecur.
  by rewrite (sub_same _ rq _ cur Erq Ecur), (sub_same _ mx _ cur Emx Ecur),
    (sub_same _ mx _ rq Emx Erq).
Qed.

(** The example of the specification: required 100, max 150, current 30
    leave 70 required and 50 of headroom. *)
Lemma remaining_demand_witness :
  let rv := sample_table (100, 150)%Z (0, 0)%Z (0, 0)%Z (0, 0)%Z in
  let research : gmap string num := {[ "I" := ofZ 30 ]} in
  remainingRequired rv (ofZ 1) research I = ofZ 70 ∧
  remainingMax rv (ofZ 1) research I = ofZ 50.
Proof.
  intros rv research.
  apply (remaining_demand rv (ofZ 1) research I (ofZ 100) (ofZ 150) (ofZ 30));
    reflexivity.
Defined.

(** ** Progress entries and rank multipliers *)

Lemma progress_of_default (mp : gmap Z Progress) (m : MissionDisplay) :
  mp !! id m = None → progress_of mp m = default_progress.
Proof. unfold progress_of. by intros ->. Qed.

(** The four ranks, and every other key that [Object.prototype] does not
    define (the key ["undefined"] of an absent rank is one). *)
Lemma rank_multiplier :
  bonus_of default_progress = VNumber (ofZ 1) ∧
  (∀ t, bonus_of {| rank := Some "none"; time := t |} = VNumber (ofZ 0)) ∧
  (∀ t, bonus_of {| rank := Some "bronze"; time := t |} = VNumber (ofZ 1)) ∧
  (∀ t, bonus_of {| rank := Some "silver"; time := t |} = VNumber (ofZ 4)) ∧
  (∀ t, bonus_of {| rank := Some "gold"; time := t |} = VNumber (ofZ 5)) ∧
  (∀ p, rank_key (rank p) ∉ known_ranks → rank_key (rank p) ∉ Object_prototype →
        bonus_of p = VNumber (ofZ 1)).
Proof.
  repeat split; try done.
  intros p Hk Hp. unfold bonus_of, get, multipliers, known_ranks in *.
  apply not_elem_of_cons in Hk as [Hnone Hk].
  apply not_elem_of_cons in Hk as [Hbronze Hk].
  apply not_elem_of_cons in Hk as [Hsilver Hk].
  apply not_elem_of_cons in Hk as [Hgold _].
  repeat (rewrite lookup_insert_ne; [|done]).
  rewrite lookup_singleton_ne; [|done].
  by rewrite bool_decide_eq_false_2.
Qed.

Lemma absent_rank_multiplier (t : option num) :
  bonus_of {| rank := None; time := t |} = VNumber (ofZ 1).
Proof. done. Qed.

(** C8 (default progress and rank multipliers), evaluated where the code
    departs from it: the rank ["toString"] is none of the four ranks, but
    [multipliers["toString"]] finds the function every object inherits, so
    [?? 1] does not apply; the multiplier is not 1 and the effective yield
    of a non-critical mission is [NaN]. *)
Theorem inherited_rank_name_is_not_defaulted :
  let p := {| rank := Some "toString"; time := Some (ofZ 1) |} in
  let rv := sample_table (100, 150)%Z (0, 0)%Z (0, 0)%Z (0, 0)%Z in
  let m := sample_mission 1 false 40 0 0 0 in
  let s := scoreMission rv (ofZ 1) ∅ {[ 1%Z := p ]} (ofZ 0) m in
  (rank_key (rank p) ∉ known_ranks) ∧
  bonus_of p = VObject ∧ ToNumber (bonus_of p) ≠ ofZ 1 ∧
  r1 s = NaN ∧ score s = NaN.
Proof.
  cbv zeta. split; [by apply (bool_decide_unpack _)|].
  split; [done|]. split; [done|]. split; by vm_compute.
Qed.

(** C10 (a time edit without an earlier entry): the time handler stores an
    entry with the new time and no rank, where the rank handler would have
    started from [{ rank: "bronze", time: 1 }]; the entry without a rank
    gets multiplier 1, and the mission is scored exactly as with rank
    bronze and that time. *)
Theorem time_edit_without_entry (prev : gmap Z Progress) (mission_id : Z) (v : num) :
  prev !! mission_id = None →
  onTimeChange mission_id v prev !! mission_id
    = Some {| rank := None; time := Some v |} ∧
  (∀ r, onRankChange mission_id r prev !! mission_id
          = Some {| rank := Some r; time := Some (ofZ 1) |}) ∧
  bonus_of {| rank := None; time := Some v |} = VNumber (ofZ 1) ∧
  (∀ rv level research dataRate m,
     id m = mission_id →
     let bronze := {| rank := Some "bronze"; time := Some v |} in
     let s := scoreMission rv level research (onTimeChange mission_id v prev) dataRate m in
     let s' := scoreMission rv level research (<[mission_id := bronze]> prev) dataRate m in
     r1 s = r1 s' ∧ r2 s = r2 s' ∧ r3 s = r3 s' ∧ r4 s = r4 s' ∧
     score s = score s' ∧ scorePerSecond s = scorePerSecond s').
Proof.
  intros Hnone. unfold onTimeChange, onRankChange.
  rewrite Hnone. simpl. split; [by rewrite lookup_insert_eq|].
  split; [intros r; by rewrite lookup_insert_eq|]. split; [done|].
  intros rv level research dataRate m <-.
  unfold scoreMission, progress_of. rewrite !lookup_insert_eq. simpl.
  done.
Qed.

(** Editing the time of mission 4 to 5 in an empty progress map. *)
Lemma time_edit_without_entry_witness :
  let m := sample_mission 4 false 40 0 0 0 in
  let rv := sample_table (100, 150)%Z (0, 0)%Z (0, 0)%Z (0, 0)%Z in
  let mp := onTimeChange 4 (ofZ 5) ∅ in
  (∅ : gmap Z Progress) !! 4%Z = None ∧
  mp !! 4%Z = Some {| rank := None; time := Some (ofZ 5) |} ∧
  r1 (scoreMission rv (ofZ 1) ∅ mp (ofZ 0) m) = ofZ 40.
Proof.
  intros m rv mp.
  destruct (time_edit_without_entry ∅ 4 (ofZ 5) (lookup_empty 4%Z))
    as (H1 & _ & _ & H4).
  split; [reflexivity|]. split; [exact H1|].
  destruct (H4 rv (ofZ 1) ∅ (ofZ 0) m eq_refl) as (E & _).
  exact (eq_trans E eq_refl).
Defined.

(** ** Importance weights *)

Lemma Math_max_list_NaN (xs : list num) (d : num) :
  Exists (λ x, x = NaN) xs → Math_max_list xs d = NaN.
Proof.
  induction 1 as [x xs ->|x xs _ IH]; simpl.
  - done.
  - rewrite IH. by destruct x.
Qed.

Lemma Math_max_list_ub (xs : list num) (d : num) :
  isNaN d = false → Forall (λ x, isNaN x = false) xs →
  let D := Math_max_list xs d in
  isNaN D = false ∧ Forall (λ x, leb x D = true) xs ∧ leb d D = true
  ∧ (D = d ∨ D ∈ xs).
Proof.
  intros Hd. induction 1 as [|x xs Hx Hxs IH]; simpl.
  - split; [done|]. split; [constructor|]. split; [by apply leb_refl|by left].
  - destruct IH as (HD & Hub & HdD & Hin).
    destruct (Math_max_ub x (Math_max_list xs d) Hx HD) as (H1 & H2 & H3).
    split; [by destruct H3 as [-> | ->]|].
    split; [|split].
    + constructor; [done|].
      eapply Forall_impl; [exact Hub|]. simpl. intros y Hy.
      by apply (leb_trans _ _ _ Hy).
    + by apply (leb_trans _ _ _ HdD).
    + destruct H3 as [-> | ->]; [right; left|].
      destruct Hin as [?|?]; [by left | right; by right].
Qed.

Lemma NaN_or_numbers (xs : list num) :
  Exists (λ x, x = NaN) xs ∨ Forall (λ x, isNaN x = false) xs.
Proof.
  induction xs as [|x xs [IH|IH]].
  - right. constructor.
  - left. by right.
  - destruct x; [left; by left|right; by constructor..].
Qed.

Lemma Math_max_list_tiers (f : tier → num) :
  floored_maximum f (Math_max_list (f <$> tiers) (ofZ 1)).
Proof.
  destruct (NaN_or_numbers (f <$> tiers)) as [HN|HF].
  - left. split; [|by apply Math_max_list_NaN].
    apply Exists_exists in HN as (x & (t & -> & _)%list_elem_of_fmap & Hx).
    by exists t.
  - right. destruct (Math_max_list_ub _ (ofZ 1) eq_refl HF) as (_ & Hub & H1 & Hin).
    split; [|split; [done|]].
    + intros t. rewrite Forall_forall in Hub. apply Hub.
      apply list_elem_of_fmap. exists t. split; [done|].
      unfold tiers. destruct t; repeat constructor.
    + destruct Hin as [?|(t & ? & _)%list_elem_of_fmap]; [by left|right; by exists t].
Qed.

Lemma floored_maximum_nonzero (f : tier → num) (D : num) :
  floored_maximum f D → strict_eq D (ofZ 0) = false.
Proof.
  intros [[_ ->]|(_ & H1 & _)]; [done|].
  destruct D as [| |q|]; simpl in *; try done.
  apply Qle_bool_iff in H1. destruct (Qeq_bool q _) eqn:Hq; [|done].
  apply Qeq_bool_iff in Hq. unfold inject_Z in *. lra.
Qed.

(** Scaling by 0.05 before or after the division gives the same number,
    the divisor being [NaN] or at least 1. *)
Lemma scale_div_commute (x d : num) :
  d = NaN ∨ leb (ofZ 1) d = true →
  mul (Fin (1 # 20)) (div x d) = div (mul (Fin (1 # 20)) x) d.
Proof.
  intros [->|Hd]; [by destruct x|].
  destruct d as [| |d|]; simpl in Hd; try done.
  - apply Qle_bool_iff in Hd. unfold inject_Z in Hd.
    assert (Hnz : Qeq_bool d 0 = false).
    { destruct (Qeq_bool d 0) eqn:Hq; [|done]. apply Qeq_bool_iff in Hq. lra. }
    assert (Hpos : Qle_bool 0 d = true) by (apply Qle_bool_iff; lra).
    destruct x as [| |x|]; simpl; rewrite ?Hnz, ?Hpos; simpl; rewrite ?Hpos; try done.
    apply fin_eq. rewrite !Qred_correct. field. lra.
  - destruct x as [| |x|]; simpl; try done.
Qed.

(** C5 (importance weight): for every tier the weight is
    [remainingRequired[tier]] divided by the maximum of [remainingRequired]
    over the tiers floored at 1, plus 0.05 times [remainingMax[tier]]
    divided by the maximum of [remainingMax] over the tiers floored at 1
    (scaling by 0.05 before or after that division is the same); neither
    divisor is ever zero. *)
Theorem importance_weight rv level research t :
  let rr := remainingRequired rv level research in
  let rm := remainingMax rv level research in
  let D1 := maxRemainingRequired rv level research in
  let D2 := maxRemainingMax rv level research in
  totalImportance rv level research t
    = add (div (rr t) D1) (mul (Fin (1 # 20)) (div (rm t) D2)) ∧
  mul (Fin (1 # 20)) (div (rm t) D2) = div (mul (Fin (1 # 20)) (rm t)) D2 ∧
  floored_maximum rr D1 ∧ floored_maximum rm D2 ∧
  strict_eq D1 (ofZ 0) = false ∧ strict_eq D2 (ofZ 0) = false.
Proof.
  intros rr rm D1 D2.
  assert (H1 : floored_maximum rr D1) by apply Math_max_list_tiers.
  assert (H2 : floored_maximum rm D2) by apply Math_max_list_tiers.
  split; [done|]. split.
  - apply scale_div_commute. destruct H2 as [[_ ->]|(_ & ? & _)]; auto.
  - repeat split; try done; by eapply floored_maximum_nonzero.
Qed.

(** With nothing remaining on any tier both divisors are the floor 1 and
    every weight is 0. *)
Lemma importance_zero rv level research :
  (∀ t, remainingRequired rv level research t = ofZ 0 ∧
        remainingMax rv level research t = ofZ 0) →
  maxRemainingRequired rv level research = ofZ 1 ∧
  maxRemainingMax rv level research = ofZ 1 ∧
  ∀ t, totalImportance rv level research t = ofZ 0.
Proof.
  intros H.
  assert (E1 : maxRemainingRequired rv level research = ofZ 1).
  { unfold maxRemainingRequired, tiers. simpl.
    by rewrite (proj1 (H I)), (proj1 (H II)), (proj1 (H III)), (proj1 (H IV)). }
  assert (E2 : maxRemainingMax rv level research = ofZ 1).
  { unfold maxRemainingMax, tiers. simpl.
    by rewrite (proj2 (H I)), (proj2 (H II)), (proj2 (H III)), (proj2 (H IV)). }
  split; [done|]. split; [done|]. intros t. unfold totalImportance.
  by rewrite E1, E2, (proj1 (H t)), (proj2 (H t)).
Qed.

Lemma mul_zero (a : num) : is_fin a → mul a (ofZ 0) = ofZ 0.
Proof.
  destruct a as [| |q|]; simpl; try done. intros _.
  apply fin_zero. unfold inject_Z. ring.
Qed.

(** The scaled yield of a tier is finite when its factors are. *)
Lemma scaled_yield_finite (y b dataRate : num) :
  is_fin y → is_fin b → is_fin dataRate →
  is_fin (Math_min (mul (mul y b) (dataRateFactor dataRate)) (ofZ 0)).
Proof.
  destruct y as [| |y|], b as [| |b|], dataRate as [| |d|]; try done.
  intros _ _ _. unfold dataRateFactor. simpl.
  by destruct (Qle_bool _ _).
Qed.

(** C7 (nothing remaining): when [remainingRequired] and [remainingMax] are
    0 on all four tiers, every importance weight is 0 and the score of a
    mission, critical or not, is 0; the mission has finite base yields, and
    the data rate and the multiplier of its rank are finite numbers. *)
Theorem zero_remaining_zero_score rv level research mp dataRate m :
  (∀ t, remainingRequired rv level research t = ofZ 0 ∧
        remainingMax rv level research t = ofZ 0) →
  finite_yields m → is_fin dataRate →
  is_fin (ToNumber (bonus_of (progress_of mp m))) →
  (∀ t, totalImportance rv level research t = ofZ 0) ∧
  score (scoreMission rv level research mp dataRate m) = ofZ 0.
Proof.
  intros H (F1 & F2 & F3 & F4) Fd Fb.
  destruct (importance_zero rv level research H) as (_ & _ & Hi).
  split; [done|]. simpl. rewrite !Hi.
  rewrite !(proj1 (H _)), !(proj2 (H _)).
  change (add (ofZ 0) (ofZ 0)) with (ofZ 0).
  destruct (isCritical m).
  - by rewrite !mul_zero.
  - rewrite !mul_zero by by apply scaled_yield_finite. done.
Qed.

(** The nothing-remaining case on a sample: tier I is filled up to its
    maximum and a gold mission at data rate 50 scores 0. *)
Lemma zero_remaining_zero_score_witness :
  let rv := sample_table (100, 150)%Z (0, 0)%Z (0, 0)%Z (0, 0)%Z in
  let research : gmap string num := {[ "I" := ofZ 150 ]} in
  let mp : gmap Z Progress :=
    {[ 1%Z := {| rank := Some "gold"; time := Some (ofZ 2) |} ]} in
  let m := sample_mission 1 false 40 30 20 10 in
  (∀ t, remainingRequired rv (ofZ 1) research t = ofZ 0 ∧
        remainingMax rv (ofZ 1) research t = ofZ 0) ∧
  score (scoreMission rv (ofZ 1) research mp (ofZ 50) m) = ofZ 0.
Proof.
  intros rv research mp m.
  assert (H : ∀ t, remainingRequired rv (ofZ 1) research t = ofZ 0 ∧
                   remainingMax rv (ofZ 1) research t = ofZ 0).
  { intros []; split; by vm_compute. }
  split; [exact H|].
  apply (zero_remaining_zero_score rv (ofZ 1) research mp (ofZ 50) m H).
  - repeat split.
  - exact Logic.I.
  - exact Logic.I.
Defined.

(** ** Data rate *)

Lemma completedTiers_empty : completedTiers ∅ = 0%nat.
Proof. unfold completedTiers, Object_values. by rewrite map_to_list_empty. Qed.

(** A further job counts when its level is at least 9, whichever job it is. *)
Lemma completedTiers_insert (levels : gmap string num) (job : string) (l : num) :
  levels !! job = None →
  completedTiers (<[job := l]> levels)
    = ((if geb l (ofZ 9) then 1 else 0) + completedTiers levels)%nat.
Proof.
  intros Hnone. unfold completedTiers, Object_values.
  rewrite (map_to_list_insert levels job l Hnone). rewrite fmap_cons. cbn [snd].
  destruct (geb l (ofZ 9)) eqn:Hl.
  - by rewrite filter_cons_True.
  - by rewrite filter_cons_False by congruence.
Qed.

(** Whatever the levels are, the data rate is one of the finite entries of
    the table or 0. *)
Lemma DataRate_finite (levels : gmap string num) : is_fin (DataRate levels).
Proof.
  unfold DataRate. generalize (completedTiers levels). intros n.
  do 12 (destruct n as [|n]; [done|]). done.
Qed.

Lemma completedTiers_size (levels : gmap string num) :
  completedTiers levels
    = size (filter (λ kv : string * num, geb kv.2 (ofZ 9) = true) levels).
Proof.
  induction levels as [|job l levels Hnone IH] using map_ind.
  - by rewrite completedTiers_empty, map_filter_empty, map_size_empty.
  - rewrite completedTiers_insert by done.
    destruct (geb l (ofZ 9)) eqn:Hl.
    + rewrite map_filter_insert_True by done.
      rewrite map_size_insert_None by (by rewrite map_lookup_filter_None; left).
      by rewrite IH.
    + rewrite map_filter_insert_not'; [by rewrite IH|cbn [snd]; congruence|].
      intros y Hy. by rewrite Hnone in Hy.
Qed.

(** C2 as stated (the count clamped to the table, so that every count of
    at least 11 gives 150) fails for twelve completed jobs: the read
    [dataRates[12]] is outside the table and [|| 0] makes the rate 0. *)
Lemma twelve_completed_jobs_rate_zero :
  (11 ≤ completedTiers twelve_jobs)%nat ∧
  DataRate twelve_jobs = ofZ 0 ∧ DataRate twelve_jobs ≠ ofZ 150.
Proof.
  assert (Hn : completedTiers twelve_jobs = 12%nat) by (vm_compute; reflexivity).
  assert (Hr : DataRate twelve_jobs = ofZ 0) by (vm_compute; reflexivity).
  rewrite Hn, Hr. split; [lia|]. split; [reflexivity|discriminate].
Qed.

(** C2, amended: the count is the number of jobs of the level map, active
    or not, whose level is at least 9; for a count of at most 11 the rate
    is the entry of the table at the count (150 at 11), and for a count of
    12 or more the rate is 0. *)
Theorem data_rate_table (levels : gmap string num) :
  let n := completedTiers levels in
  n = size (filter (λ kv : string * num, geb kv.2 (ofZ 9) = true) levels) ∧
  ((n ≤ 11)%nat → Some (DataRate levels) = dataRates !! n) ∧
  (n = 11%nat → DataRate levels = ofZ 150) ∧
  ((12 ≤ n)%nat → DataRate levels = ofZ 0).
Proof.
  intros n. split; [apply completedTiers_size|].
  unfold DataRate. fold n. clearbody n.
  split; [|split].
  - intros Hn. do 12 (destruct n as [|n]; [reflexivity|]). lia.
  - by intros ->.
  - intros Hn. do 12 (destruct n as [|n]; [lia|]). reflexivity.
Qed.

(** Eleven completed jobs give 150, twelve give 0. *)
Lemma data_rate_table_witness :
  let eleven := delete EmptyString twelve_jobs in
  completedTiers eleven = 11%nat ∧ DataRate eleven = ofZ 150 ∧
  (12 ≤ completedTiers twelve_jobs)%nat ∧ DataRate twelve_jobs = ofZ 0.
Proof.
  intros eleven.
  assert (H11 : completedTiers eleven = 11%nat) by (vm_compute; reflexivity).
  assert (H12 : (12 ≤ completedTiers twelve_jobs)%nat).
  { replace (completedTiers twelve_jobs) with 12%nat by (vm_compute; reflexivity).
    apply le_n. }
  split; [exact H11|].
  split; [exact (proj1 (proj2 (proj2 (data_rate_table eleven))) H11)|].
  split; [exact H12|].
  exact (proj2 (proj2 (proj2 (data_rate_table twelve_jobs))) H12).
Defined.

(** ** Finite inputs give finite scores *)

Lemma is_fin_number (a : num) : is_fin a → isNaN a = false.
Proof. by destruct a. Qed.

Lemma is_fin_add (a b : num) : is_fin a → is_fin b → is_fin (add a b).
Proof. by destruct a, b. Qed.

Lemma is_fin_sub (a b : num) : is_fin a → is_fin b → is_fin (sub a b).
Proof. by destruct a, b. Qed.

Lemma is_fin_mul (a b : num) : is_fin a → is_fin b → is_fin (mul a b).
Proof. by destruct a, b. Qed.

Lemma is_fin_div (a b : num) :
  is_fin a → is_fin b → strict_eq b (ofZ 0) = false → is_fin (div a b).
Proof.
  destruct a as [| |x|], b as [| |y|]; try done. simpl. intros _ _ Hy.
  change (Qeq_bool y 0 = false) in Hy. by rewrite Hy.
Qed.

Lemma is_fin_Math_max (a b : num) : is_fin a → is_fin b → is_fin (Math_max a b).
Proof. destruct a, b; try done. simpl. by destruct (Qle_bool _ _). Qed.

Lemma is_fin_Math_min (a b : num) : is_fin a → is_fin b → is_fin (Math_min a b).
Proof. destruct a, b; try done. simpl. by destruct (Qle_bool _ _). Qed.

Lemma is_fin_or_default (o : option num) (d : num) :
  (∀ a, o = Some a → is_fin a) → is_fin d → is_fin (or_default o d).
Proof.
  intros Ho Hd. destruct o as [a|]; [|done]. simpl.
  destruct (truthy a); [by apply Ho|done].
Qed.

Lemma array_get_elem {A} (arr : list A) (i : num) (a : A) :
  array_get arr i = Some a → a ∈ arr.
Proof.
  unfold array_get. destruct (as_integer i) as [n|]; [|done].
  case_decide; [|done]. apply list_elem_of_lookup_2.
Qed.

Lemma is_fin_Math_max_list (xs : list num) (d : num) :
  Forall is_fin xs → is_fin d → is_fin (Math_max_list xs d).
Proof.
  induction 1; simpl; [done|]. intros Hd. apply is_fin_Math_max; auto.
Qed.

Section FiniteScores.
Variable rv : ResearchValues.
Variable level : num.
Variable research : gmap string num.
Variable mp : gmap Z Progress.
Variable dataRate : num.
Hypothesis table_finite : finite_table rv.
Hypothesis counts_finite : finite_counts research.
Hypothesis rate_finite : is_fin dataRate.

Lemma is_fin_remaining (t : tier) :
  is_fin (remainingRequired rv level research t) ∧
  is_fin (remainingMax rv level research t).
Proof.
  destruct (table_finite t) as [Hr Hm]. rewrite Forall_forall in Hr, Hm.
  assert (is_fin (req rv level t)).
  { apply is_fin_or_default; [|done]. intros a Ha%array_get_elem. by apply Hr. }
  assert (is_fin (maxVal rv level t)).
  { apply is_fin_or_default; [|done]. intros a Ha%array_get_elem. by apply Hm. }
  assert (is_fin (current research t)).
  { apply is_fin_or_default; [|done]. intros a Ha. by eapply counts_finite. }
  split.
  - apply is_fin_Math_max; [by apply is_fin_sub|done].
  - apply is_fin_Math_max; [|done].
    apply is_fin_Math_min; by apply is_fin_sub.
Qed.

Lemma is_fin_totalImportance (t : tier) :
  is_fin (totalImportance rv level research t).
Proof.
  unfold totalImportance. cbv zeta.
  apply is_fin_add; [|apply is_fin_mul; [done|]].
  - apply is_fin_div; [apply is_fin_remaining| |].
    + apply is_fin_Math_max_list; [|done].
      apply Forall_fmap, Forall_forall. intros t' _. apply is_fin_remaining.
    + eapply floored_maximum_nonzero, Math_max_list_tiers.
  - apply is_fin_div; [apply is_fin_remaining| |].
    + apply is_fin_Math_max_list; [|done].
      apply Forall_fmap, Forall_forall. intros t' _. apply is_fin_remaining.
    + eapply floored_maximum_nonzero, Math_max_list_tiers.
Qed.

Lemma is_fin_dataRateFactor : is_fin (dataRateFactor dataRate).
Proof. unfold dataRateFactor. destruct dataRate; done. Qed.

(** Under the data model every [scorePerSecond] is a finite number. *)
Lemma scorePerSecond_finite (m : MissionDisplay) :
  finite_yields m → measurable (progress_of mp m) →
  is_fin (scorePerSecond (scoreMission rv level research mp dataRate m)).
Proof.
  intros (F1 & F2 & F3 & F4) (Fb & q & Hq & Hpos).
  pose proof is_fin_dataRateFactor as Fr.
  assert (Hy : ∀ y cap, is_fin y → is_fin cap →
    is_fin (if isCritical m then y
            else Math_min (mul (mul y (ToNumber (bonus_of (progress_of mp m))))
                               (dataRateFactor dataRate)) cap)).
  { intros y cap Fy Fc. destruct (isCritical m); [done|].
    apply is_fin_Math_min; [|done]. by repeat apply is_fin_mul. }
  cbn [scoreMission scorePerSecond]. unfold time_num. rewrite Hq. simpl default.
  apply is_fin_div; [|done|].
  - repeat apply is_fin_add; apply is_fin_mul;
      try apply is_fin_totalImportance;
      apply Hy; try done; apply is_fin_add; apply is_fin_remaining.
  - simpl. destruct (Qeq_bool q _) eqn:E; [|done].
    apply Qeq_bool_iff in E. unfold inject_Z in E. lra.
Qed.
End FiniteScores.

(** ** Ranking *)

Lemma compareFn_stay (x y : Scored) :
  has_rate x → has_rate y →
  ltb (ofZ 0) (compareFn x y) = false → ranked_before x y.
Proof.
  unfold has_rate, compareFn, ranked_before, unmeasured, geb. intros Hx Hy.
  destruct (strict_eq (time_num (progress x)) (ofZ 1)),
    (strict_eq (time_num (progress y)) (ofZ 1)); cbn [negb andb]; intros Hc.
  - split; [done|]. intros _. by apply sub_not_positive.
  - done.
  - done.
  - split; [done|]. intros _. by apply sub_not_positive.
Qed.

Lemma compareFn_swap (x y : Scored) :
  has_rate x → has_rate y →
  ltb (ofZ 0) (compareFn x y) = true → ranked_before y x.
Proof.
  unfold has_rate, compareFn, ranked_before, unmeasured, geb. intros Hx Hy.
  destruct (strict_eq (time_num (progress x)) (ofZ 1)),
    (strict_eq (time_num (progress y)) (ofZ 1)); cbn [negb andb]; intros Hc.
  - split; [done|]. intros _. by apply sub_positive.
  - done.
  - done.
  - split; [done|]. intros _. by apply sub_positive.
Qed.

Lemma ranked_before_trans (x y z : Scored) :
  has_rate x → has_rate y → has_rate z →
  ranked_before x y → ranked_before y z → ranked_before x z.
Proof.
  unfold ranked_before, geb. intros _ _ _ [Hxy1 Hxy2] [Hyz1 Hyz2].
  split; [auto|]. intros Hxz.
  destruct (unmeasured x) eqn:Ux, (unmeasured y) eqn:Uy, (unmeasured z) eqn:Uz;
    try done; try (by specialize (Hxy1 eq_refl)); try (by specialize (Hyz1 eq_refl)).
  - eapply leb_trans; [by apply Hyz2 | by apply Hxy2].
  - eapply leb_trans; [by apply Hyz2 | by apply Hxy2].
Qed.

Lemma missionsWithScores_sorted rv level research mp dataRate missions :
  let rows := missionsWithScores rv level research mp dataRate missions in
  (∀ s, s ∈ rows → has_rate s) → StronglySorted ranked_before rows.
Proof.
  intros rows Hrate.
  apply (sort_sorted compareFn ranked_before has_rate).
  - apply compareFn_stay.
  - apply compareFn_swap.
  - apply ranked_before_trans.
  - apply Forall_forall. intros s Hs. apply Hrate.
    unfold rows, missionsWithScores. by rewrite sort_perm.
Qed.

(** Under the data model the table is in ranking order. *)
Lemma missionsWithScores_sorted_data_model rv level research mp dataRate missions :
  finite_table rv → finite_counts research → is_fin dataRate →
  (∀ m, m ∈ missions → finite_yields m ∧ measurable (progress_of mp m)) →
  StronglySorted ranked_before
    (missionsWithScores rv level research mp dataRate missions).
Proof.
  intros Ht Hc Hd Hm. apply missionsWithScores_sorted.
  intros s (m & Hin & ->)%elem_of_missionsWithScores.
  destruct (Hm m Hin) as [Hy Hp].
  by apply is_fin_number, scorePerSecond_finite.
Qed.

(** C6 (ranking): the rows are the scored missions, reordered so that of
    two rows the earlier one has a time other than 1 whenever the later one
    has, and within the group of time 1 and within the group of the other
    times the earlier row has the larger or equal [scorePerSecond]; every
    [scorePerSecond] is a number (not [NaN]), as for times above 0 and
    finite scores. *)
Theorem ranking_order rv level research mp dataRate missions :
  let rows := missionsWithScores rv level research mp dataRate missions in
  (∀ s, s ∈ rows → isNaN (scorePerSecond s) = false) →
  rows ≡ₚ (scoreMission rv level research mp dataRate <$> missions) ∧
  ∀ (i j : nat) (a b : Scored),
    (i < j)%nat → rows !! i = Some a → rows !! j = Some b →
    (unmeasured a = true → unmeasured b = true) ∧
    (unmeasured a = unmeasured b →
     geb (scorePerSecond a) (scorePerSecond b) = true).
Proof.
  intros rows Hrate. split; [apply sort_perm|].
  pose proof (missionsWithScores_sorted rv level research mp dataRate missions Hrate) as HS.
  intros i j a b Hij Ha Hb.
  exact (StronglySorted_lookup ranked_before rows i j a b HS Hij Ha Hb).
Qed.

(** The example of the specification: two missions with [scorePerSecond]
    10 each, listed with the one of time 1 first; the one of time 5 is
    ranked first. *)
Lemma ranking_order_witness :
  let rv := sample_table (1000, 1000)%Z (0, 0)%Z (0, 0)%Z (0, 0)%Z in
  let mp : gmap Z Progress :=
    {[ 1%Z := {| rank := Some "bronze"; time := Some (ofZ 5) |} ]} in
  let missions := [sample_mission 2 false 10 0 0 0; sample_mission 1 false 50 0 0 0] in
  let rows := missionsWithScores rv (ofZ 1) ∅ mp (ofZ 0) missions in
  (λ s, (id (mission s), time_num (progress s), scorePerSecond s)) <$> rows
    = [(1%Z, ofZ 5, ofZ 10); (2%Z, ofZ 1, ofZ 10)] ∧
  ∀ a b, rows !! 0%nat = Some a → rows !! 1%nat = Some b →
    (unmeasured a = true → unmeasured b = true) ∧
    (unmeasured a = unmeasured b →
     geb (scorePerSecond a) (scorePerSecond b) = true).
Proof.
  intros rv mp missions rows. split; [by vm_compute|].
  intros a b.
  apply (ranking_order rv (ofZ 1) ∅ mp (ofZ 0) missions); [|lia].
  intros s (m & Hm & ->)%elem_of_missionsWithScores.
  unfold missions in Hm.
  apply elem_of_cons in Hm as [->|Hm]; [by vm_compute|].
  apply elem_of_cons in Hm as [->|Hm]; [by vm_compute|].
  by apply elem_of_nil in Hm.
Defined.

(** ** Normalisation *)

Section ParseFacts.
Variable StringToNumber : string → num.

Lemma add_reward_skip (rewards : gmap Z num) (type qty : num) :
  isNaN type = true ∨ isNaN qty = true →
  add_reward rewards (type, qty) = rewards.
Proof.
  intros [H|H]; [by destruct type|]. destruct qty; try done.
  unfold add_reward. by rewrite andb_false_r.
Qed.

Lemma Map_set_elem {V} (k k' : num) (v v' : V) (m : list (num * V)) :
  (k', v') ∈ Map_set k v m → (k', v') ∈ m ∨ v' = v.
Proof.
  induction m as [|[k0 v0] m IH]; simpl; intros H.
  - apply list_elem_of_singleton in H. injection H as _ Hv. by right.
  - destruct (same_value_zero k0 k).
    + apply elem_of_cons in H as [H|H]; [|left; by right].
      injection H as _ Hv. by right.
    + apply elem_of_cons in H as [->|H]; [left; by left|].
      destruct (IH H) as [?|?]; [left; by right|by right].
Qed.

Lemma parseMissionRewards_elem (data : list (list string))
    (acc : list (num * MissionReward.t)) (k : num) (r : MissionReward.t) :
  (k, r) ∈ foldl (λ map row,
                    let reward := parseMissionReward StringToNumber row in
                    Map_set (MissionReward.id reward) reward map) acc data →
  (k, r) ∈ acc ∨ ∃ row, row ∈ data ∧ r = parseMissionReward StringToNumber row.
Proof.
  revert acc. induction data as [|row data IH]; simpl; intros acc H; [by left|].
  destruct (IH _ H) as [Hacc|(row' & Hrow & ->)].
  - apply Map_set_elem in Hacc as [? | ->]; [by left|].
    right. exists row. split; [by left|done].
  - right. exists row'. split; [by right|done].
Qed.

Lemma slice_numbers_lookup (row : list string) (start i : nat) :
  (i < 9)%nat →
  slice_numbers StringToNumber row start !! i
    = StringToNumber <$> row !! (start + i)%nat.
Proof.
  intros Hi. unfold slice_numbers.
  by rewrite list_lookup_fmap, lookup_take_lt, lookup_drop.
Qed.
End ParseFacts.

(** C9 as stated (each entry of the required and max arrays is 0 whenever
    its source cell is not a valid number) fails on [malformed_table]: the
    entry produced from the cell ["n/a"] is [NaN]. *)
Lemma malformed_requirement_cell_stays_NaN :
  decimal_integer "n/a" = NaN ∧
  ∃ rv, parseCosmoToolData decimal_integer malformed_table = Some rv ∧
        required rv I !! 0%nat = Some NaN ∧
        required rv I !! 0%nat ≠ Some (ofZ 0).
Proof.
  split; [reflexivity|]. eexists. split; [reflexivity|].
  split; [reflexivity|discriminate].
Qed.

(** C9, amended.  Whatever [Number] makes of a string:
    - every reward of the parsed reward table comes from a row, its credit
      fields are 0 when their cell is missing or not a number, and a reward
      slot whose type or quantity is not a number leaves the research
      rewards as they are; if that is so for the three slots, the four
      research rewards are 0;
    - on a table with a last row, the entries of the [required] and [max]
      arrays are [Number] of the cells of that row ([NaN], not 0, for a
      cell that is not a number, and no entry for a missing cell);
    - the scoring engine reads an entry that is [NaN] or missing as 0. *)
Theorem normalisation_of_malformed_cells (StringToNumber : string → num) :
  (∀ data k r,
     (k, r) ∈ parseMissionRewards StringToNumber data →
     ∃ row, row ∈ data ∧ r = parseMissionReward StringToNumber row) ∧
  (∀ row,
     let r := parseMissionReward StringToNumber row in
     (isNaN (Number_cell StringToNumber row 4) = true →
      MissionReward.cosmocredits r = ofZ 0) ∧
     (isNaN (Number_cell StringToNumber row 5) = true →
      MissionReward.lunarcredits r = ofZ 0) ∧
     ((isNaN (Number_cell StringToNumber row 8) = true ∨
       isNaN (Number_cell StringToNumber row 9) = true) →
      (isNaN (Number_cell StringToNumber row 11) = true ∨
       isNaN (Number_cell StringToNumber row 12) = true) →
      (isNaN (Number_cell StringToNumber row 14) = true ∨
       isNaN (Number_cell StringToNumber row 15) = true) →
      ∀ n, (1 ≤ n ≤ 4)%Z → MissionReward.researchRewards r !! n = Some (ofZ 0))) ∧
  (∀ rewards type qty,
     isNaN type = true ∨ isNaN qty = true →
     add_reward rewards (type, qty) = rewards) ∧
  (∀ data lastRow,
     last data = Some lastRow →
     ∃ rv, parseCosmoToolData StringToNumber data = Some rv ∧
       ∀ t (i : nat), (i < 9)%nat →
         required rv t !! i
           = StringToNumber <$> lastRow !! (required_column t + i)%nat ∧
         max rv t !! i
           = StringToNumber <$> lastRow !! (max_column t + i)%nat) ∧
  (∀ rv level research t,
     (array_get (required rv t) (sub level (ofZ 1)) = None ∨
      array_get (required rv t) (sub level (ofZ 1)) = Some NaN →
      req rv level t = ofZ 0) ∧
     (array_get (max rv t) (sub level (ofZ 1)) = None ∨
      array_get (max rv t) (sub level (ofZ 1)) = Some NaN →
      maxVal rv level t = ofZ 0) ∧
     isNaN (req rv level t) = false ∧ isNaN (maxVal rv level t) = false ∧
     isNaN (current research t) = false).
Proof.
  split; [|split; [|split; [|split]]].
  - intros data k r H. unfold parseMissionRewards in H.
    apply parseMissionRewards_elem in H as [[]%elem_of_nil|H]. done.
  - intros row r. subst r. cbn [parseMissionReward MissionReward.cosmocredits
      MissionReward.lunarcredits MissionReward.researchRewards].
    split; [|split].
    + by destruct (Number_cell StringToNumber row 4).
    + by destruct (Number_cell StringToNumber row 5).
    + intros H1 H2 H3 n Hn. cbn [foldl].
      rewrite !add_reward_skip by done.
      assert (n = 1 ∨ n = 2 ∨ n = 3 ∨ n = 4)%Z as [-> | [-> | [-> | ->]]] by lia;
        reflexivity.
  - apply add_reward_skip.
  - intros data lastRow Hlast. unfold parseCosmoToolData. rewrite Hlast.
    eexists. split; [reflexivity|]. intros t i Hi. cbn [required max].
    rewrite !slice_numbers_lookup by done. by destruct t.
  - intros rv level research t. unfold req, maxVal, current.
    repeat split.
    + by intros [-> | ->].
    + by intros [-> | ->].
    + destruct (array_get _ _) as [[| |q|]|]; try done.
      simpl. by destruct (Qeq_bool q 0).
    + destruct (array_get _ _) as [[| |q|]|]; try done.
      simpl. by destruct (Qeq_bool q 0).
    + destruct (research !! _) as [[| |q|]|]; try done.
      simpl. by destruct (Qeq_bool q 0).
Qed.

(** A reward row whose first credit cell and whose three quantities are
    not numbers. *)
Lemma normalisation_of_malformed_cells_witness :
  let row := ["5"; "Reward"; "0"; "0"; "n/a"; "20"; "0"; "0";
              "1"; "n/a"; "0"; "2"; "n/a"; "0"; "3"; "n/a"] in
  let r := parseMissionReward decimal_integer row in
  isNaN (Number_cell decimal_integer row 4) = true ∧
  MissionReward.cosmocredits r = ofZ 0 ∧
  MissionReward.lunarcredits r = ofZ 20 ∧
  MissionReward.researchRewards r !! 1%Z = Some (ofZ 0).
Proof.
  intros row r.
  destruct (normalisation_of_malformed_cells decimal_integer) as (_ & Hrow & _).
  destruct (Hrow row) as (Hc & _ & Hr).
  split; [reflexivity|]. split; [apply Hc; reflexivity|].
  split; [reflexivity|].
  apply Hr; [right; reflexivity..|lia].
Defined.

(** * Further properties *)

(** ** Maps keyed by numbers *)

Lemma same_value_zero_refl (k : num) : same_value_zero k k = true.
Proof. destruct k; try done. simpl. apply Qeq_bool_iff. reflexivity. Qed.

Lemma same_value_zero_congr (a b c : num) :
  same_value_zero a b = true → same_value_zero a c = same_value_zero b c.
Proof.
  destruct a as [| |x|], b as [| |y|], c as [| |z|]; simpl; try done.
  intros H%Qeq_bool_iff. apply eq_true_iff_eq. rewrite !Qeq_bool_iff.
  by rewrite H.
Qed.

Lemma Map_get_set {V} (k k2 : num) (v : V) (m : list (num * V)) :
  Map_get k2 (Map_set k v m)
    = if same_value_zero k k2 then Some v else Map_get k2 m.
Proof.
  induction m as [|[k' v'] m IH]; simpl; [done|].
  destruct (same_value_zero k' k) eqn:E; simpl.
  - rewrite (same_value_zero_congr k' k k2 E). by destruct (same_value_zero k k2).
  - rewrite IH. destruct (same_value_zero k' k2) eqn:E2; [|done].
    destruct (same_value_zero k k2) eqn:E3; [|done].
    rewrite (same_value_zero_congr k' k2 k E2) in E.
    rewrite <- (same_value_zero_congr k k2 k E3) in E.
    by rewrite same_value_zero_refl in E.
Qed.

Lemma Map_get_elem {V} (k : num) (v : V) (m : list (num * V)) :
  Map_get k m = Some v → ∃ k', (k', v) ∈ m ∧ same_value_zero k' k = true.
Proof.
  induction m as [|[k' v'] m IH]; simpl; [done|].
  destruct (same_value_zero k' k) eqn:E.
  - intros [= ->]. exists k'. split; [by left|done].
  - intros (k'' & Hin & Hk)%IH. exists k''. split; [by right|done].
Qed.

Section FoldRows.
Context {R V : Type} (keep : R → bool) (key : R → num) (val : R → V).

Lemma store_rows_skip (k : num) (rows : list R) (acc : list (num * V)) :
  Forall (λ row, keep row = true → same_value_zero (key row) k = false) rows →
  Map_get k (foldl (store keep key val) acc rows) = Map_get k acc.
Proof.
  revert acc. induction rows as [|row rows IH]; simpl; intros acc H; [done|].
  apply Forall_cons in H as [Hrow Hrows]. rewrite IH by done.
  unfold store. destruct (keep row); [|done].
  by rewrite Map_get_set, Hrow.
Qed.

Lemma store_rows_last (rows1 rows2 : list R) (row : R) (acc : list (num * V)) :
  keep row = true →
  Forall (λ r, keep r = true → same_value_zero (key r) (key row) = false) rows2 →
  Map_get (key row) (foldl (store keep key val) acc (rows1 ++ row :: rows2)) = Some (val row).
Proof.
  intros Hk H. rewrite foldl_app. simpl. rewrite store_rows_skip by done.
  unfold store at 1. rewrite Hk. by rewrite Map_get_set, same_value_zero_refl.
Qed.

Lemma store_rows_found (k : num) (v : V) (rows : list R) (acc : list (num * V)) :
  Map_get k (foldl (store keep key val) acc rows) = Some v →
  Map_get k acc = Some v ∨
  ∃ row, row ∈ rows ∧ keep row = true ∧
         same_value_zero (key row) k = true ∧ v = val row.
Proof.
  revert acc. induction rows as [|row rows IH]; simpl; intros acc H; [by left|].
  destruct (IH _ H) as [Hacc|(r & Hr & ?)].
  - unfold store in Hacc. destruct (keep row) eqn:Hk; [|by left].
    rewrite Map_get_set in Hacc.
    destruct (same_value_zero (key row) k) eqn:E; [|by left].
    injection Hacc as <-. right. exists row. split; [by left|done].
  - right. exists r. split; [by right|done].
Qed.

Lemma store_rows_drop (rows1 rows2 : list R) (row : R) (acc : list (num * V)) :
  keep row = false →
  foldl (store keep key val) acc (rows1 ++ row :: rows2) = foldl (store keep key val) acc (rows1 ++ rows2).
Proof.
  intros Hk. rewrite !foldl_app. simpl. unfold store at 2. by rewrite Hk.
Qed.
End FoldRows.

(** ** The reward table and the job table *)

Section LoadFacts.
Variable StringToNumber : string → num.

Lemma parseMissionRewards_store (data : list (list string)) :
  parseMissionRewards StringToNumber data
    = foldl (store (λ _, true) (λ row, Number_cell StringToNumber row 0)
                   (parseMissionReward StringToNumber)) [] data.
Proof. reflexivity. Qed.

Lemma parseClassJobs_store (data : list (list string)) :
  parseClassJobs StringToNumber data
    = foldl (store (λ row, geb (Number_cell StringToNumber row 9) (ofZ 0)) (λ row, Number_cell StringToNumber row 0)
                   (λ row, {| ClassJob.id := Number_cell StringToNumber row 0;
                              ClassJob.abbreviation := row !! 2%nat;
                              ClassJob.name := row !! 30%nat |})) [] data.
Proof. reflexivity. Qed.

Lemma parseMissionRewards_none (data : list (list string)) (k : num) :
  no_row_with (λ row, Number_cell StringToNumber row 0) k data →
  Map_get k (parseMissionRewards StringToNumber data) = None.
Proof.
  intros H. rewrite parseMissionRewards_store. rewrite store_rows_skip; [done|].
  eapply Forall_impl; [exact H|]. by intros row Hrow _.
Qed.

(** X1 (reward lookup): the reward found under an id is the one parsed
    from the last row of the reward table with that id; an id that no row
    has finds nothing. *)
Theorem reward_lookup (data : list (list string)) (k : num) :
  (no_row_with (λ row, Number_cell StringToNumber row 0) k data →
   Map_get k (parseMissionRewards StringToNumber data) = None) ∧
  (∀ (rows1 rows2 : list (list string)) row,
     data = (rows1 ++ row :: rows2)%list →
     same_value_zero (Number_cell StringToNumber row 0) k = true →
     no_row_with (λ r, Number_cell StringToNumber r 0) k rows2 →
     Map_get k (parseMissionRewards StringToNumber data)
       = Some (parseMissionReward StringToNumber row)).
Proof.
  split; [apply parseMissionRewards_none|]. rewrite parseMissionRewards_store.
  - intros rows1 rows2 row -> Hk Hrows2.
    rewrite foldl_app. simpl. rewrite store_rows_skip.
    + unfold store at 1. by rewrite Map_get_set, Hk.
    + eapply Forall_impl; [exact Hrows2|]. by intros r Hr _.
Qed.
End LoadFacts.

(** ** Research rewards of a reward row *)

Lemma Qred_inject_Z (z : Z) : Qred (inject_Z z) = inject_Z z.
Proof.
  unfold inject_Z, Qred.
  assert (Hg : Z.ggcd z 1 = (1, (z, 1))%Z).
  { pose proof (Z.ggcd_correct_divisors z 1) as Hd.
    pose proof (Z.ggcd_gcd z 1) as Hgcd. rewrite Z.gcd_1_r in Hgcd.
    destruct (Z.ggcd z 1) as [g [a b]]. simpl in *. subst g.
    destruct Hd as [Ha Hb]. f_equal. f_equal; lia. }
  by rewrite Hg.
Qed.

Lemma canonical_fin (q : Q) : canonical (fin q).
Proof. apply Qred_complete, Qred_correct. Qed.

Lemma canonical_ofZ (z : Z) : canonical (ofZ z).
Proof. apply Qred_inject_Z. Qed.

Lemma canonical_add (a b : num) : canonical (add a b).
Proof. destruct a, b; simpl; try done; apply canonical_fin. Qed.

Lemma add_zero_r (a : num) : canonical a → add a (ofZ 0) = a.
Proof.
  destruct a as [| |q|]; simpl; try done. intros Hq.
  rewrite <- Hq at 2. unfold fin. f_equal. apply Qred_complete.
  unfold inject_Z. ring.
Qed.

Lemma as_integer_Some (a : num) (n : Z) :
  as_integer a = Some n → ∃ q, a = Fin q ∧ (q == inject_Z n)%Q.
Proof.
  destruct a as [| |q|]; simpl; try done. case_decide as Hden; [|done].
  intros [= <-]. exists q. split; [done|].
  rewrite <- (Qred_correct q) at 1. destruct (Qred q) as [m d]. simpl in *.
  by subst d.
Qed.

Lemma slot_type_in_range (type : num) (n : Z) :
  geb type (ofZ 1) = true → leb type (ofZ 4) = true →
  as_integer type = Some n → (1 ≤ n ≤ 4)%Z.
Proof.
  intros H1 H4 (q & -> & Hq)%as_integer_Some. unfold geb in H1. simpl in *.
  apply Qle_bool_iff in H1, H4. rewrite Hq in H1, H4.
  rewrite <- Zle_Qle in H1, H4. lia.
Qed.

Lemma add_reward_lookup (rewards : gmap Z num) (slot : num * num) (n : Z) :
  four_rewards rewards → (1 ≤ n ≤ 4)%Z →
  add_reward rewards slot !! n
    = Some (add (default NaN (rewards !! n)) (slot_quantity n slot)).
Proof.
  intros Hr Hn. destruct slot as [type qty].
  destruct (proj1 (Hr n)) as [_ Hsome]. destruct (Hsome Hn) as [old Hold].
  pose proof (proj2 (Hr n) old Hold) as Hcan.
  unfold add_reward, slot_quantity. rewrite Hold. simpl default.
  destruct (geb type (ofZ 1) && leb type (ofZ 4) && negb (isNaN qty)); simpl;
    [|by rewrite add_zero_r].
  destruct (as_integer type) as [m|] eqn:Hm.
  - destruct (decide (m = n)) as [->|Hne].
    + rewrite bool_decide_eq_true_2 by done. by rewrite lookup_insert_eq, Hold.
    + rewrite bool_decide_eq_false_2 by congruence.
      rewrite lookup_insert_ne by done. by rewrite add_zero_r.
  - rewrite bool_decide_eq_false_2 by done. by rewrite add_zero_r.
Qed.

Lemma add_reward_four (rewards : gmap Z num) (slot : num * num) :
  four_rewards rewards → four_rewards (add_reward rewards slot).
Proof.
  intros Hr n. destruct slot as [type qty]. unfold add_reward.
  destruct (geb type (ofZ 1)) eqn:H1; [|apply Hr].
  destruct (leb type (ofZ 4)) eqn:H4; [|apply Hr].
  destruct (negb (isNaN qty)); [|apply Hr]. simpl.
  destruct (as_integer type) as [m|] eqn:Hm; [|apply Hr].
  pose proof (slot_type_in_range type m H1 H4 Hm) as Hrange.
  destruct (decide (m = n)) as [->|Hne].
  - rewrite lookup_insert_eq. split; [by split|].
    intros v [= <-]. apply canonical_add.
  - rewrite lookup_insert_ne by done. apply Hr.
Qed.

Lemma initial_rewards_four :
  four_rewards {[ 1%Z := ofZ 0; 2%Z := ofZ 0; 3%Z := ofZ 0; 4%Z := ofZ 0 ]}.
Proof.
  intros n. split.
  - split.
    + intros [v Hv].
      destruct (decide (n = 1%Z)) as [->|?]; [lia|]. rewrite lookup_insert_ne in Hv by done.
      destruct (decide (n = 2%Z)) as [->|?]; [lia|]. rewrite lookup_insert_ne in Hv by done.
      destruct (decide (n = 3%Z)) as [->|?]; [lia|]. rewrite lookup_insert_ne in Hv by done.
      destruct (decide (n = 4%Z)) as [->|?]; [lia|]. by rewrite lookup_singleton_ne in Hv.
    + intros Hn. assert (n = 1 ∨ n = 2 ∨ n = 3 ∨ n = 4)%Z as [-> | [-> | [-> | ->]]] by lia;
        by eexists.
  - intros v Hv.
    destruct (decide (n = 1%Z)) as [->|?].
    { rewrite lookup_insert_eq in Hv. injection Hv as <-. apply canonical_ofZ. }
    rewrite lookup_insert_ne in Hv by done.
    destruct (decide (n = 2%Z)) as [->|?].
    { rewrite lookup_insert_eq in Hv. injection Hv as <-. apply canonical_ofZ. }
    rewrite lookup_insert_ne in Hv by done.
    destruct (decide (n = 3%Z)) as [->|?].
    { rewrite lookup_insert_eq in Hv. injection Hv as <-. apply canonical_ofZ. }
    rewrite lookup_insert_ne in Hv by done.
    destruct (decide (n = 4%Z)) as [->|?].
    { rewrite lookup_singleton_eq in Hv. injection Hv as <-. apply canonical_ofZ. }
    by rewrite lookup_singleton_ne in Hv.
Qed.

Lemma parseMissionReward_four (StringToNumber : string → num) (row : list string) :
  four_rewards (MissionReward.researchRewards (parseMissionReward StringToNumber row)).
Proof.
  cbn [parseMissionReward MissionReward.researchRewards foldl].
  do 3 apply add_reward_four. apply initial_rewards_four.
Qed.



(** ** The job table and the missions loaded from the tables *)

Section JoinFacts.
Variable StringToNumber : string → num.

Lemma parseClassJobs_none (data : list (list string)) (k : num) :
  Forall (λ row, geb (Number_cell StringToNumber row 9) (ofZ 0) = true →
                 same_value_zero (Number_cell StringToNumber row 0) k = false) data →
  Map_get k (parseClassJobs StringToNumber data) = None.
Proof. intros H. rewrite parseClassJobs_store. by rewrite store_rows_skip. Qed.

(** X3 (job table): a job id finds the job of the last row with that id
    among the rows whose validity cell (column 9) is a number of at least
    0, and nothing if there is no such row; a row whose validity cell is
    negative, missing or not a number leaves the job table as it is. *)
Theorem job_lookup (data : list (list string)) (k : num) :
  let valid row := geb (Number_cell StringToNumber row 9) (ofZ 0) in
  let other row := valid row = true →
                   same_value_zero (Number_cell StringToNumber row 0) k = false in
  (Forall other data → Map_get k (parseClassJobs StringToNumber data) = None) ∧
  (∀ (rows1 rows2 : list (list string)) row,
     data = (rows1 ++ row :: rows2)%list →
     valid row = true →
     same_value_zero (Number_cell StringToNumber row 0) k = true →
     Forall other rows2 →
     Map_get k (parseClassJobs StringToNumber data)
       = Some {| ClassJob.id := Number_cell StringToNumber row 0;
                 ClassJob.abbreviation := row !! 2%nat;
                 ClassJob.name := row !! 30%nat |}) ∧
  (∀ (rows1 rows2 : list (list string)) row,
     data = (rows1 ++ row :: rows2)%list →
     valid row = false →
     parseClassJobs StringToNumber data
       = parseClassJobs StringToNumber (rows1 ++ rows2)%list).
Proof.
  intros valid other. subst valid other. cbv beta.
  split; [apply parseClassJobs_none|]. rewrite parseClassJobs_store. split.
  - intros rows1 rows2 row -> Hv Hk Hrows2.
    rewrite foldl_app. cbn [foldl]. rewrite store_rows_skip by done.
    unfold store at 1. by rewrite Hv, Map_get_set, Hk.
  - intros rows1 rows2 row -> Hv. rewrite parseClassJobs_store.
    by apply store_rows_drop.
Qed.

(** X4 (loaded missions): every loaded mission comes from a mission row, a
    valid job row whose id is the raw job id of the mission row minus 1,
    and a reward row with the reward id of the mission row (column 9).  It
    carries the abbreviation of that job, which is one of the tabs, and the
    credits and the four research rewards of that reward, all four
    defined; it is critical unless its flag cell (column 13) is the number
    0, so also when that cell is missing. *)
Theorem loaded_mission (classJobRaw missionUnitRaw missionRewardRaw : list (list string))
    (m : Loaded.MissionDisplay) :
  m ∈ missionDisplays StringToNumber classJobRaw missionUnitRaw missionRewardRaw →
  ∃ row jobRow rewardRow,
    row ∈ missionUnitRaw ∧ jobRow ∈ classJobRaw ∧ rewardRow ∈ missionRewardRaw ∧
    geb (Number_cell StringToNumber jobRow 9) (ofZ 0) = true ∧
    same_value_zero (Number_cell StringToNumber jobRow 0)
                    (sub (Number_cell StringToNumber row 3) (ofZ 1)) = true ∧
    same_value_zero (Number_cell StringToNumber rewardRow 0)
                    (Number_cell StringToNumber row 9) = true ∧
    Loaded.jobAbbreviation m = jobRow !! 2%nat ∧
    Loaded.jobAbbreviation m ∈ jobList (parseClassJobs StringToNumber classJobRaw) ∧
    (let reward := parseMissionReward StringToNumber rewardRow in
     Loaded.cosmocredits m = MissionReward.cosmocredits reward ∧
     Loaded.lunarcredits m = MissionReward.lunarcredits reward ∧
     Loaded.research1 m = MissionReward.researchRewards reward !! 1%Z ∧
     Loaded.research2 m = MissionReward.researchRewards reward !! 2%Z ∧
     Loaded.research3 m = MissionReward.researchRewards reward !! 3%Z ∧
     Loaded.research4 m = MissionReward.researchRewards reward !! 4%Z) ∧
    (is_Some (Loaded.research1 m) ∧ is_Some (Loaded.research2 m) ∧
     is_Some (Loaded.research3 m) ∧ is_Some (Loaded.research4 m)) ∧
    Loaded.isCritical m
      = negb (strict_eq (Number_cell StringToNumber row 13) (ofZ 0)) ∧
    (row !! 13%nat = None → Loaded.isCritical m = true).
Proof.
  unfold missionDisplays. intros (row & Hrow & Hload)%list_elem_of_omap.
  unfold loadMission in Hload.
  destruct (Map_get _ (parseClassJobs _ _)) as [job|] eqn:Hjob; [|done].
  destruct (Map_get _ (parseMissionRewards _ _)) as [reward|] eqn:Hreward; [|done].
  injection Hload as <-.
  pose proof Hjob as Hjob'. rewrite parseClassJobs_store in Hjob'.
  apply store_rows_found in Hjob' as [?|(jobRow & HjobRow & Hvalid & Hjk & ->)]; [done|].
  pose proof Hreward as Hreward'. rewrite parseMissionRewards_store in Hreward'.
  apply store_rows_found in Hreward' as [?|(rewardRow & HrewardRow & _ & Hrk & ->)]; [done|].
  exists row, jobRow, rewardRow. cbn.
  pose proof (parseMissionReward_four StringToNumber rewardRow) as Hfour.
  repeat split; try done.
  - apply Map_get_elem in Hjob as (k' & Hin & _).
    unfold jobList. apply list_elem_of_fmap.
    by exists (k', {| ClassJob.id := Number_cell StringToNumber jobRow 0;
                      ClassJob.abbreviation := jobRow !! 2%nat;
                      ClassJob.name := jobRow !! 30%nat |}).
  - by apply (proj1 (Hfour 1%Z)).
  - by apply (proj1 (Hfour 2%Z)).
  - by apply (proj1 (Hfour 3%Z)).
  - by apply (proj1 (Hfour 4%Z)).
  - intros Hnone. unfold Number_cell. by rewrite Hnone.
Qed.

(** X5 (dropped mission rows): a mission row whose job id minus 1 names no
    valid job, or whose reward id names no reward, is skipped: the loaded
    missions are those of the table without that row. *)
Theorem mission_row_dropped (classJobRaw missionRewardRaw : list (list string))
    (rows1 rows2 : list (list string)) (row : list string) :
  Forall (λ jobRow,
            geb (Number_cell StringToNumber jobRow 9) (ofZ 0) = true →
            same_value_zero (Number_cell StringToNumber jobRow 0)
                            (sub (Number_cell StringToNumber row 3) (ofZ 1)) = false)
         classJobRaw ∨
  no_row_with (λ r, Number_cell StringToNumber r 0)
              (Number_cell StringToNumber row 9) missionRewardRaw →
  missionDisplays StringToNumber classJobRaw (rows1 ++ row :: rows2)%list missionRewardRaw
    = missionDisplays StringToNumber classJobRaw (rows1 ++ rows2)%list missionRewardRaw.
Proof.
  intros H. unfold missionDisplays. rewrite !omap_app. f_equal. simpl.
  assert (Hnone : loadMission StringToNumber (parseClassJobs StringToNumber classJobRaw)
                    (parseMissionRewards StringToNumber missionRewardRaw) row = None).
  { unfold loadMission. destruct H as [H|H].
    - by rewrite (parseClassJobs_none classJobRaw _ H).
    - rewrite (parseMissionRewards_none StringToNumber missionRewardRaw _ H).
      by destruct (Map_get _ _). }
  by rewrite Hnone.
Qed.
End JoinFacts.

(** A table with an invalid heading row, a valid carpenter row and a row
    too short to have a validity cell. *)
Lemma job_lookup_witness :
  let header := ["0"; "adventurer"; "ADV"; "x"; "x"; "x"; "x"; "x"; "x"; "-1"] in
  let carpenter := ["8"; "carpenter"; "CRP"; "x"; "x"; "x"; "x"; "x"; "x"; "0"] in
  let short_row := ["9"; "blacksmith"; "BSM"] in
  Map_get (ofZ 8) (parseClassJobs decimal_integer [header; carpenter; short_row])
    = Some {| ClassJob.id := ofZ 8; ClassJob.abbreviation := Some "CRP";
              ClassJob.name := None |} ∧
  parseClassJobs decimal_integer [header; carpenter; short_row]
    = parseClassJobs decimal_integer [header; carpenter].
Proof.
  intros header carpenter short_row.
  destruct (job_lookup decimal_integer [header; carpenter; short_row] (ofZ 8))
    as (_ & Hlast & Hdrop).
  split.
  - apply (Hlast [header] [short_row] carpenter); [reflexivity..|].
    repeat constructor.
  - apply (Hdrop [header; carpenter] [] short_row); reflexivity.
Defined.

(** Two reward rows with id 5: the later one is found. *)
Lemma reward_lookup_witness :
  let first := ["5"; "Reward"; "0"; "0"; "30"; "20"] in
  let second := ["5"; "Reward"; "0"; "0"; "40"; "25"] in
  let other := ["6"; "Reward"; "0"; "0"; "1"; "1"] in
  MissionReward.cosmocredits <$>
    Map_get (ofZ 5) (parseMissionRewards decimal_integer [first; second; other])
    = Some (ofZ 40) ∧
  Map_get (ofZ 7) (parseMissionRewards decimal_integer [first; second; other]) = None.
Proof.
  intros first second other.
  destruct (reward_lookup decimal_integer [first; second; other] (ofZ 5)) as [_ Hlast].
  destruct (reward_lookup decimal_integer [first; second; other] (ofZ 7)) as [Hnone _].
  split.
  - rewrite (Hlast [first] [other] second); [reflexivity..|].
    repeat constructor.
  - apply Hnone. repeat constructor.
Defined.

(** A mission row of job id 9 and reward id 5, too short to have a flag
    cell, loaded against a job table with job 8 and a reward table with
    reward 5: the mission is critical and belongs to the tab CRP. *)
Lemma loaded_mission_witness :
  let jobs := [["8"; "carpenter"; "CRP"; "x"; "x"; "x"; "x"; "x"; "x"; "0"]] in
  let rewards := [["5"; "Reward"; "0"; "0"; "30"; "20"; "0"; "0"; "1"; "10"]] in
  let rows := [["101"; "Mission"; "x"; "9"; "x"; "x"; "x"; "1"; "x"; "5"]] in
  ∃ m, m ∈ missionDisplays decimal_integer jobs rows rewards ∧
       Loaded.isCritical m = true ∧
       Loaded.jobAbbreviation m ∈ jobList (parseClassJobs decimal_integer jobs) ∧
       Loaded.research1 m = Some (ofZ 10).
Proof.
  intros jobs rewards rows.
  assert (Hne : ∃ m, m ∈ missionDisplays decimal_integer jobs rows rewards
                     ∧ Loaded.research1 m = Some (ofZ 10)).
  { eexists. split; [vm_compute; apply list_elem_of_here|reflexivity]. }
  destruct Hne as (m & Hin & Hr1). exists m. split; [exact Hin|].
  destruct (loaded_mission decimal_integer jobs rows rewards m Hin)
    as (row & jobRow & rewardRow & Hrow & _ & _ & _ & _ & _ & _ & Htab & _ & _ & _ & Hcrit).
  apply list_elem_of_singleton in Hrow. subst row.
  split; [by apply Hcrit|]. split; [exact Htab|exact Hr1].
Defined.

(** A mission row whose job id 3 names no job is skipped. *)
Lemma mission_row_dropped_witness :
  let jobs := [["8"; "carpenter"; "CRP"; "x"; "x"; "x"; "x"; "x"; "x"; "0"]] in
  let rewards := [["5"; "Reward"; "0"; "0"; "30"; "20"; "0"; "0"; "1"; "10"]] in
  let good := ["101"; "Mission"; "x"; "9"; "x"; "x"; "x"; "1"; "x"; "5"] in
  let orphan := ["102"; "Mission"; "x"; "3"; "x"; "x"; "x"; "1"; "x"; "5"] in
  missionDisplays decimal_integer jobs [good; orphan] rewards
    = missionDisplays decimal_integer jobs [good] rewards.
Proof.
  intros jobs rewards good orphan.
  apply (mission_row_dropped decimal_integer jobs rewards [good] [] orphan).
  left. repeat constructor.
Defined.

(** ** The requirement table *)

Lemma as_integer_ofZ (z : Z) : as_integer (ofZ z) = Some z.
Proof. unfold as_integer, ofZ. by rewrite Qred_inject_Z. Qed.

Lemma sub_ofZ (a b : Z) : sub (ofZ a) (ofZ b) = ofZ (a - b).
Proof.
  unfold sub, ofZ, fin. f_equal. rewrite <- (Qred_inject_Z (a - b)).
  apply Qred_complete. unfold Qeq, inject_Z. simpl. lia.
Qed.

(** Reading an array at [level - 1] for an integer level. *)
Lemma array_get_level {A} (arr : list A) (L : Z) :
  array_get arr (sub (ofZ L) (ofZ 1))
    = if decide (1 ≤ L)%Z then arr !! Z.to_nat (L - 1) else None.
Proof.
  unfold array_get. rewrite sub_ofZ, as_integer_ofZ.
  destruct (decide (0 ≤ L - 1)%Z), (decide (1 ≤ L)%Z); try done; lia.
Qed.

(** A level that is none of 1 to 9 reads outside an array of at most nine
    entries. *)
Lemma array_get_no_level {A} (arr : list A) (level : num) :
  (length arr ≤ 9)%nat →
  (∀ L, (1 ≤ L ≤ 9)%Z → strict_eq level (ofZ L) = false) →
  array_get arr (sub level (ofZ 1)) = None.
Proof.
  intros Hlen Hlevel. unfold array_get.
  destruct (as_integer (sub level (ofZ 1))) as [n|] eqn:Hn; [|done].
  case_decide as Hpos; [|done].
  destruct (decide (n < 9)%Z) as [Hlt|Hge].
  - exfalso. apply as_integer_Some in Hn as (q' & Hsub & Hq').
    destruct level as [| |q|]; try done. simpl in Hsub. injection Hsub as <-.
    specialize (Hlevel (n + 1)%Z ltac:(lia)). simpl in Hlevel.
    assert (Ht : Qeq_bool q (inject_Z (n + 1)) = true); [|congruence].
    apply Qeq_bool_iff. rewrite Qred_correct in Hq'.
    rewrite inject_Z_plus. unfold inject_Z in *. lra.
  - apply lookup_ge_None. lia.
Qed.

Lemma current_number (research : gmap string num) (t : tier) :
  isNaN (current research t) = false.
Proof.
  unfold current. destruct (research !! _) as [[| |q|]|]; try done.
  simpl. by destruct (Qeq_bool q 0).
Qed.

(** Without requirement and maximum there is no headroom, and nothing is
    required once the count is not negative. *)
Lemma headroom_zero (rq mx cur : num) :
  strict_eq rq (ofZ 0) = true → strict_eq mx (ofZ 0) = true →
  isNaN cur = false →
  Math_max (Math_min (sub mx cur) (sub mx rq)) (ofZ 0) = ofZ 0.
Proof.
  destruct rq as [| |r|], mx as [| |m|]; try done. simpl.
  intros Hr%Qeq_bool_iff Hm%Qeq_bool_iff Hc. unfold inject_Z in *.
  assert (E : fin (m - r) = Fin 0) by (apply fin_zero; lra). rewrite E.
  destruct cur as [| |c|]; try done. simpl.
  destruct (Qle_bool (Qred (m - c)) 0) eqn:E1; simpl; [|done].
  change (inject_Z 0) with 0%Q. by rewrite E1.
Qed.

Lemma requirement_zero (rq cur : num) :
  strict_eq rq (ofZ 0) = true → leb (ofZ 0) cur = true →
  Math_max (sub rq cur) (ofZ 0) = ofZ 0.
Proof.
  destruct rq as [| |r|], cur as [| |c|]; try done. simpl.
  intros Hr%Qeq_bool_iff Hc%Qle_bool_iff. unfold inject_Z in *.
  replace (Qle_bool (Qred (r - c)) 0) with true; [done|].
  symmetry. apply Qle_bool_iff. rewrite Qred_correct. lra.
Qed.

Section TableFacts.
Variable StringToNumber : string → num.

Lemma slice_numbers_length (row : list string) (start : nat) :
  length (slice_numbers StringToNumber row start)
    = (9 `min` (length row - start))%nat.
Proof. unfold slice_numbers. by rewrite length_fmap, length_take, length_drop. Qed.

Lemma parseCosmoToolData_lengths (data : list (list string)) (rv : ResearchValues) (t : tier) :
  parseCosmoToolData StringToNumber data = Some rv →
  (length (required rv t) ≤ 9)%nat ∧ (length (max rv t) ≤ 9)%nat.
Proof.
  unfold parseCosmoToolData. destruct (last data) as [lastRow|]; [|done].
  intros [= <-]. cbn [required max]. rewrite !slice_numbers_length. lia.
Qed.

(** X6 (only the last row): the requirement table is read from its last
    row alone, whatever rows precede it, and an empty table gives none;
    the array of a tier holds the cells of its nine columns that the row
    has, so nine entries each when the row has at least 73 cells. *)
Theorem requirement_table_last_row (data : list (list string)) (row : list string) :
  parseCosmoToolData StringToNumber (data ++ [row])%list
    = parseCosmoToolData StringToNumber [row] ∧
  parseCosmoToolData StringToNumber [] = None ∧
  ∃ rv, parseCosmoToolData StringToNumber (data ++ [row])%list = Some rv ∧
    ∀ t, length (required rv t) = (9 `min` (length row - required_column t))%nat ∧
         length (max rv t) = (9 `min` (length row - max_column t))%nat ∧
         ((73 ≤ length row)%nat →
          length (required rv t) = 9%nat ∧ length (max rv t) = 9%nat).
Proof.
  unfold parseCosmoToolData. rewrite last_snoc. simpl.
  split; [done|]. split; [done|]. eexists. split; [reflexivity|].
  intros t. cbn [required max]. rewrite !slice_numbers_length.
  destruct t; cbn [required_column max_column];
    (split; [done|]; split; [done|]; lia).
Qed.

(** X7 (from the table to the engine): at an integer level [L] from 1 to 9
    the requirement and the maximum the engine works with for a tier are
    [Number] of the cells of the last row at the columns
    [2 + 18 i + (L - 1)] and [10 + 18 i + (L - 1)] of the tier, or 0 when
    that cell is missing, not a number or 0. *)
Theorem requirement_read (data : list (list string)) (lastRow : list string)
    (rv : ResearchValues) (L : Z) (t : tier) :
  last data = Some lastRow →
  parseCosmoToolData StringToNumber data = Some rv →
  (1 ≤ L ≤ 9)%Z →
  req rv (ofZ L) t
    = or_default (StringToNumber <$> lastRow !! (required_column t + Z.to_nat (L - 1))%nat)
                 (ofZ 0) ∧
  maxVal rv (ofZ L) t
    = or_default (StringToNumber <$> lastRow !! (max_column t + Z.to_nat (L - 1))%nat)
                 (ofZ 0).
Proof.
  intros Hlast Hparse HL. unfold parseCosmoToolData in Hparse.
  rewrite Hlast in Hparse. injection Hparse as <-.
  unfold req, maxVal. cbn [required max]. rewrite !array_get_level.
  rewrite !decide_True by lia.
  rewrite !slice_numbers_lookup by lia. by destruct t.
Qed.

(** X8 (a level outside 1 to 9): with a parsed requirement table and a
    level that is none of the numbers 1 to 9 (0, 10, a fraction), every
    tier reads requirement 0 and maximum 0, no tier is unlocked, the
    summary has no row, and no tier has headroom left. *)
Theorem level_outside_table (data : list (list string)) (rv : ResearchValues)
    (level : num) (research : gmap string num) :
  parseCosmoToolData StringToNumber data = Some rv →
  (∀ L, (1 ≤ L ≤ 9)%Z → strict_eq level (ofZ L) = false) →
  (∀ t, req rv level t = ofZ 0 ∧ maxVal rv level t = ofZ 0 ∧
        remainingMax rv level research t = ofZ 0) ∧
  unlockedTiers (Some rv) level = [] ∧
  ResearchSummary (Some rv) level research = Some [].
Proof.
  intros Hparse Hlevel.
  assert (Hreq : ∀ t, req rv level t = ofZ 0 ∧ maxVal rv level t = ofZ 0).
  { intros t. destruct (parseCosmoToolData_lengths data rv t Hparse) as [Hr Hm].
    unfold req, maxVal. by rewrite !array_get_no_level. }
  split; [|split].
  - intros t. destruct (Hreq t) as [Hr Hm]. split; [done|]. split; [done|].
    unfold remainingMax. rewrite Hr, Hm.
    apply headroom_zero; [done..|apply current_number].
  - unfold unlockedTiers, tiers, tier_active.
    rewrite !filter_cons_False, filter_nil; [done|..];
      (rewrite (proj1 (Hreq _)), (proj2 (Hreq _)); done).
  - unfold ResearchSummary, tiers, summaryRow. simpl.
    by rewrite !(proj1 (Hreq _)), !(proj2 (Hreq _)).
Qed.
End TableFacts.

(** A table of three rows: the last one counts.  Its tier I needs 100 at
    level 1 with maximum 150; level 10 is outside the table. *)
Lemma requirement_read_witness :
  let old := (["1"; "Tool"] ++ replicate 72 "1")%list in
  let lastRow := (["3"; "Tool"; "100"] ++ replicate 7 "200" ++ ["150"]
                  ++ replicate 62 "0")%list in
  ∃ rv, parseCosmoToolData decimal_integer [old; old; lastRow] = Some rv ∧
        req rv (ofZ 1) I = ofZ 100 ∧ maxVal rv (ofZ 1) I = ofZ 150.
Proof.
  intros old lastRow. eexists. split; [reflexivity|].
  eapply (requirement_read decimal_integer [old; old; lastRow] lastRow _ 1 I);
    [reflexivity|reflexivity|lia].
Defined.

Lemma level_outside_table_witness :
  let lastRow := (["3"; "Tool"; "100"] ++ replicate 7 "200" ++ ["150"]
                  ++ replicate 62 "0")%list in
  ∃ rv, parseCosmoToolData decimal_integer [lastRow] = Some rv ∧
        unlockedTiers (Some rv) (ofZ 1) = [I] ∧
        unlockedTiers (Some rv) (ofZ 10) = [].
Proof.
  intros lastRow. eexists. split; [reflexivity|]. split; [by vm_compute|].
  eapply (level_outside_table decimal_integer [lastRow] _ (ofZ 10) ∅ eq_refl).
  intros L HL. simpl. apply not_true_iff_false. rewrite Qeq_bool_iff.
  unfold Qeq, inject_Z. simpl. lia.
Defined.

(** ** The summary, the unlocked tiers and the state edits *)

Lemma summaryRow_active rv level research (t : tier) :
  match summaryRow rv level research t with
  | Some row =>
      tier_active rv level t = true ∧ row_tier row = t ∧
      row_required row = req rv level t ∧ row_max row = maxVal rv level t ∧
      row_current row = current research t
  | None => tier_active rv level t = false
  end.
Proof.
  unfold summaryRow, tier_active.
  by destruct (strict_eq (req rv level t) (ofZ 0)),
    (strict_eq (maxVal rv level t) (ofZ 0)).
Qed.

Lemma summary_tiers rv level research (ts : list tier) :
  row_tier <$> omap (summaryRow rv level research) ts
    = filter (λ t, tier_active rv level t = true) ts.
Proof.
  induction ts as [|t ts IH]; [done|]. csimpl.
  pose proof (summaryRow_active rv level research t) as H.
  destruct (summaryRow rv level research t) as [row|].
  - destruct H as (Ha & Ht & _). rewrite filter_cons_True by done.
    csimpl. by rewrite Ht, IH.
  - rewrite filter_cons_False by congruence. done.
Qed.

(** X9 (summary and columns agree): the summary has a row for exactly the
    unlocked tiers, in the same order, each row showing the requirement,
    the maximum and the count the engine works with; while the requirement
    table is not loaded there is no summary, no table and no unlocked
    tier. *)
Theorem summary_rows_are_unlocked_tiers rv level research missionProgress dataRate missions :
  (∃ rows, ResearchSummary (Some rv) level research = Some rows ∧
     row_tier <$> rows = unlockedTiers (Some rv) level ∧
     ∀ row, row ∈ rows →
       row_required row = req rv level (row_tier row) ∧
       row_max row = maxVal rv level (row_tier row) ∧
       row_current row = current research (row_tier row)) ∧
  ResearchSummary None level research = None ∧
  unlockedTiers None level = [] ∧
  MissionTable None level research missionProgress dataRate missions = None.
Proof.
  split; [|done]. eexists. split; [reflexivity|]. split; [apply summary_tiers|].
  intros row (t & _ & Ht)%list_elem_of_omap.
  pose proof (summaryRow_active rv level research t) as H. rewrite Ht in H.
  destruct H as (_ & -> & ? & ? & ?). done.
Qed.

Lemma div_zero (D : num) :
  isNaN D = false → strict_eq D (ofZ 0) = false → div (ofZ 0) D = ofZ 0.
Proof.
  destruct D as [| |d|]; try done. simpl. intros _ Hd.
  change (Qeq_bool d 0 = false) in Hd. rewrite Hd. apply fin_zero.
  unfold inject_Z. field. intros E. apply Qeq_bool_neq in Hd. by apply Hd.
Qed.

(** X10 (a locked tier): a tier without requirement and maximum at the
    level has no headroom left and, its count not being negative, nothing
    required; its importance weight is 0 when both divisors are numbers. *)
Theorem locked_tier_weighs_nothing rv level research (t : tier) :
  tier_active rv level t = false →
  nonneg (current research t) →
  remainingRequired rv level research t = ofZ 0 ∧
  remainingMax rv level research t = ofZ 0 ∧
  (isNaN (maxRemainingRequired rv level research) = false →
   isNaN (maxRemainingMax rv level research) = false →
   totalImportance rv level research t = ofZ 0).
Proof.
  unfold tier_active, nonneg. intros Ha Hc.
  apply orb_false_iff in Ha as [Hr%negb_false_iff Hm%negb_false_iff].
  assert (Err : remainingRequired rv level research t = ofZ 0)
    by by apply requirement_zero.
  assert (Erm : remainingMax rv level research t = ofZ 0)
    by (apply headroom_zero; [done..|apply current_number]).
  split; [done|]. split; [done|]. intros N1 N2.
  unfold totalImportance. rewrite Err, Erm.
  rewrite !div_zero; [done|done| |done|].
  - eapply floored_maximum_nonzero, Math_max_list_tiers.
  - eapply floored_maximum_nonzero, Math_max_list_tiers.
Qed.

(** X11 (the highlighted row): with a finite requirement, a row of the
    summary is highlighted exactly when the requirement of its tier is
    above 0 and the engine has nothing left to require of that tier. *)
Theorem highlighted_row rv level research (t : tier) (row : SummaryRow) :
  summaryRow rv level research t = Some row →
  is_fin (req rv level t) →
  (row_completed row = true ↔
   ltb (ofZ 0) (req rv level t) = true ∧
   remainingRequired rv level research t = ofZ 0).
Proof.
  unfold summaryRow, remainingRequired.
  destruct (_ && _); [done|]. intros [= <-]. cbn [row_completed].
  pose proof (current_number research t) as Hc.
  destruct (req rv level t) as [| |r|]; try done. intros _.
  rewrite andb_true_iff. unfold geb.
  destruct (current research t) as [| |c|]; try done; simpl.
  - split; [by intros [? ?]|]. by intros [? ?].
  - change (inject_Z 0) with 0%Q.
    destruct (Qle_bool (Qred (r - c)) 0) eqn:E.
    + apply Qle_bool_iff in E. rewrite Qred_correct in E.
      assert (Qle_bool r c = true) by (apply Qle_bool_iff; lra).
      split; [by intros [? ?]|]. by intros [? ?].
    + apply Qle_bool_false in E. rewrite Qred_correct in E.
      split.
      * intros [Hle%Qle_bool_iff _]. lra.
      * intros [_ [= Hz]]. exfalso.
        assert (Hq : (Qred (r - c) == 0)%Q) by (by rewrite Hz).
        rewrite Qred_correct in Hq. lra.
  - split; [by intros [? ?]|]. by intros [? ?].
Qed.

Lemma tier_key_inj (t t' : tier) : tier_key t = tier_key t' → t = t'.
Proof. by destruct t, t'. Qed.



(** X14 (the data rate): whatever the levels are, the data rate is 0, 50,
    100 or 150, so that yields are scaled by 1, 3/2, 2 or 5/2. *)
Theorem data_rate_values (levels : gmap string num) :
  (DataRate levels = ofZ 0 ∧ dataRateFactor (DataRate levels) = ofZ 1) ∨
  (DataRate levels = ofZ 50 ∧ dataRateFactor (DataRate levels) = Fin (3 # 2)) ∨
  (DataRate levels = ofZ 100 ∧ dataRateFactor (DataRate levels) = ofZ 2) ∨
  (DataRate levels = ofZ 150 ∧ dataRateFactor (DataRate levels) = Fin (5 # 2)).
Proof.
  unfold DataRate. generalize (completedTiers levels). intros n.
  destruct n as [|n]; [left; by vm_compute|].
  do 2 (destruct n as [|n]; [right; left; by vm_compute|]).
  do 2 (destruct n as [|n]; [right; right; left; by vm_compute|]).
  do 7 (destruct n as [|n]; [right; right; right; by vm_compute|]).
  left. by vm_compute.
Qed.

(** A tier active at level 1 with requirement 100 and maximum 150: its
    row is highlighted once the count reaches 100. *)
Lemma highlighted_row_witness :
  let rv := sample_table (100, 150)%Z (0, 0)%Z (0, 0)%Z (0, 0)%Z in
  let research : gmap string num := {[ "I" := ofZ 120 ]} in
  (row_completed <$> summaryRow rv (ofZ 1) research I) = Some true ∧
  remainingRequired rv (ofZ 1) research I = ofZ 0.
Proof.
  intros rv research. split; [reflexivity|].
  destruct (summaryRow rv (ofZ 1) research I) as [row|] eqn:Hrow; [|done].
  apply (highlighted_row rv (ofZ 1) research I row Hrow Logic.I).
  by injection Hrow as <-.
Defined.

(** Tier IV is locked in the sample table. *)
Lemma locked_tier_weighs_nothing_witness :
  let rv := sample_table (100, 150)%Z (0, 0)%Z (0, 0)%Z (0, 0)%Z in
  let research : gmap string num := {[ "IV" := ofZ 7 ]} in
  tier_active rv (ofZ 1) IV = false ∧
  totalImportance rv (ofZ 1) research IV = ofZ 0.
Proof.
  intros rv research. split; [reflexivity|].
  by apply (locked_tier_weighs_nothing rv (ofZ 1) research IV).
Defined.



(** ** More on scores *)

Lemma Math_min_le_left (x cap : num) : ltb x (Math_min x cap) = false.
Proof.
  assert (Hrefl : ∀ q, negb (Qle_bool q q) = false).
  { intros q. apply negb_false_iff, Qle_bool_iff, Qle_refl. }
  destruct x as [| |x|], cap as [| |c|]; simpl; try done.
  destruct (Qle_bool x c) eqn:H; simpl; [done|].
  apply negb_false_iff, Qle_bool_iff. apply Qle_bool_false in H. lra.
Qed.

(** X15 (bounds of the effective yield): for a mission that is not
    critical, the effective yield of a tier exceeds neither the base yield
    scaled by the rank multiplier and the data rate, nor the cap of the
    tier, which is the remaining requirement plus the remaining headroom of
    the tier for tiers I, III and IV, and the remaining requirement of tier
    III plus the remaining headroom of tier II for tier II. *)
Theorem effective_yield_bounds rv level research mp dataRate m :
  isCritical m = false →
  let s := scoreMission rv level research mp dataRate m in
  let rr := remainingRequired rv level research in
  let rm := remainingMax rv level research in
  let scaled y :=
    mul (mul y (ToNumber (bonus_of (progress_of mp m)))) (dataRateFactor dataRate) in
  (ltb (add (rr I) (rm I)) (r1 s) = false ∧ ltb (scaled (research1 m)) (r1 s) = false) ∧
  (ltb (add (rr III) (rm II)) (r2 s) = false ∧ ltb (scaled (research2 m)) (r2 s) = false) ∧
  (ltb (add (rr III) (rm III)) (r3 s) = false ∧ ltb (scaled (research3 m)) (r3 s) = false) ∧
  (ltb (add (rr IV) (rm IV)) (r4 s) = false ∧ ltb (scaled (research4 m)) (r4 s) = false).
Proof.
  intros Hc. cbn [scoreMission r1 r2 r3 r4]. rewrite Hc.
  repeat split; (apply Math_min_le_cap || apply Math_min_le_left).
Qed.

(** The example of the specification: rank gold, data rate 50, base yield
    40 and 300 of remaining demand give the effective yield 300. *)
Lemma effective_yield_bounds_witness :
  let rv := sample_table (200, 300)%Z (0, 0)%Z (0, 0)%Z (0, 0)%Z in
  let mp : gmap Z Progress :=
    {[ 1%Z := {| rank := Some "gold"; time := Some (ofZ 2) |} ]} in
  let m := sample_mission 1 false 40 0 0 0 in
  let s := scoreMission rv (ofZ 1) ∅ mp (ofZ 50) m in
  r1 s = ofZ 300 ∧
  ltb (add (remainingRequired rv (ofZ 1) ∅ I) (remainingMax rv (ofZ 1) ∅ I)) (r1 s)
    = false.
Proof.
  intros rv mp m s. split; [reflexivity|].
  by destruct (effective_yield_bounds rv (ofZ 1) ∅ mp (ofZ 50) m eq_refl)
    as ((H & _) & _).
Defined.

Lemma Math_max_zero_nonneg (x : num) :
  isNaN x = false → leb (ofZ 0) (Math_max x (ofZ 0)) = true.
Proof.
  destruct x as [| |x|]; try done. simpl. change (inject_Z 0) with 0%Q. intros _.
  destruct (Qle_bool x 0) eqn:E; simpl; [done|].
  apply Qle_bool_iff. apply Qle_bool_false in E. lra.
Qed.

Lemma add_nonneg (a b : num) :
  leb (ofZ 0) a = true → leb (ofZ 0) b = true → leb (ofZ 0) (add a b) = true.
Proof.
  destruct a as [| |x|], b as [| |y|]; simpl; try done.
  rewrite !Qle_bool_iff, Qred_correct. unfold inject_Z. lra.
Qed.

Lemma mul_zero_l (a : num) : is_fin a → mul (ofZ 0) a = ofZ 0.
Proof. by destruct a. Qed.

Lemma Math_min_zero_cap (cap : num) :
  leb (ofZ 0) cap = true → Math_min (ofZ 0) cap = ofZ 0.
Proof. destruct cap; simpl; try done; by intros ->. Qed.

Section ScoreFacts.
Variable rv : ResearchValues.
Variable level : num.
Variable research : gmap string num.
Variable dataRate : num.
Hypothesis table_finite : finite_table rv.
Hypothesis counts_finite : finite_counts research.
Hypothesis rate_finite : is_fin dataRate.

Lemma remaining_nonneg (t : tier) :
  leb (ofZ 0) (remainingRequired rv level research t) = true ∧
  leb (ofZ 0) (remainingMax rv level research t) = true.
Proof.
  destruct (is_fin_remaining rv level research table_finite counts_finite t)
    as [H1 H2].
  unfold remainingRequired, remainingMax in *.
  split; apply Math_max_zero_nonneg.
  - by destruct (sub (req rv level t) (current research t)).
  - by destruct (Math_min _ _).
Qed.

(** X16 (rank none): with finite inputs, a mission that is not critical
    and has rank none has effective yield 0 on every tier and score 0. *)
Theorem rank_none_scores_nothing (mp : gmap Z Progress) (m : MissionDisplay) :
  finite_yields m → isCritical m = false →
  rank (progress_of mp m) = Some "none" →
  let s := scoreMission rv level research mp dataRate m in
  r1 s = ofZ 0 ∧ r2 s = ofZ 0 ∧ r3 s = ofZ 0 ∧ r4 s = ofZ 0 ∧ score s = ofZ 0.
Proof.
  intros (F1 & F2 & F3 & F4) Hc Hrank.
  assert (Hb : ToNumber (bonus_of (progress_of mp m)) = ofZ 0).
  { unfold bonus_of. by rewrite Hrank. }
  assert (Hy : ∀ y cap, is_fin y → leb (ofZ 0) cap = true →
    Math_min (mul (mul y (ofZ 0)) (dataRateFactor dataRate)) cap = ofZ 0).
  { intros y cap Fy Hcap. rewrite mul_zero by done.
    rewrite mul_zero_l by by apply is_fin_dataRateFactor.
    by apply Math_min_zero_cap. }
  cbn [scoreMission r1 r2 r3 r4 score]. rewrite Hc, Hb.
  rewrite !Hy; try done; try (apply add_nonneg; apply remaining_nonneg).
  repeat split; try done.
  rewrite !mul_zero_l by by apply is_fin_totalImportance. done.
Qed.
End ScoreFacts.

Lemma rank_none_scores_nothing_witness :
  let rv := sample_table (100, 150)%Z (0, 0)%Z (0, 0)%Z (0, 0)%Z in
  let mp : gmap Z Progress :=
    {[ 1%Z := {| rank := Some "none"; time := Some (ofZ 2) |} ]} in
  let m := sample_mission 1 false 40 30 20 10 in
  score (scoreMission rv (ofZ 1) ∅ mp (ofZ 50) m) = ofZ 0.
Proof.
  intros rv mp m.
  apply (rank_none_scores_nothing rv (ofZ 1) ∅ (ofZ 50)); try done.
  - intros t. destruct t; repeat constructor.
Defined.

(** ** A better rank never lowers a score *)

Lemma leb_Fin (x y : Q) : leb (Fin x) (Fin y) = true ↔ (x <= y)%Q.
Proof. simpl. apply Qle_bool_iff. Qed.

Lemma mul_le_mono (a b w : num) :
  is_fin a → is_fin b → is_fin w →
  leb a b = true → leb (ofZ 0) w = true → leb (mul a w) (mul b w) = true.
Proof.
  destruct a as [| |x|], b as [| |y|], w as [| |z|]; try done. intros _ _ _.
  unfold mul, fin, ofZ. rewrite !leb_Fin, !Qred_correct. unfold inject_Z.
  intros Hxy Hz. by apply Qmult_le_compat_r.
Qed.

Lemma mul_le_mono_l (y b b' : num) :
  is_fin y → is_fin b → is_fin b' →
  leb (ofZ 0) y = true → leb b b' = true → leb (mul y b) (mul y b') = true.
Proof.
  destruct y as [| |y|], b as [| |b|], b' as [| |b'|]; try done. intros _ _ _.
  unfold mul, fin, ofZ. rewrite !leb_Fin, !Qred_correct. unfold inject_Z.
  intros Hy Hb. rewrite (Qmult_comm y b), (Qmult_comm y b').
  by apply Qmult_le_compat_r.
Qed.

Lemma add_le_mono (a b c d : num) :
  is_fin a → is_fin b → is_fin c → is_fin d →
  leb a b = true → leb c d = true → leb (add a c) (add b d) = true.
Proof.
  destruct a as [| |x|], b as [| |y|], c as [| |z|], d as [| |u|]; try done.
  intros _ _ _ _. unfold add, fin. rewrite !leb_Fin, !Qred_correct. lra.
Qed.

Lemma Math_min_le_mono (a b cap : num) :
  isNaN cap = false → leb a b = true →
  leb (Math_min a cap) (Math_min b cap) = true.
Proof.
  destruct a as [| |x|], b as [| |y|], cap as [| |c|]; try done; simpl;
    intros _ H; try apply Qle_bool_iff in H;
    repeat match goal with
           | |- context [Qle_bool ?p ?q] =>
               let E := fresh "E" in
               destruct (Qle_bool p q) eqn:E;
               [apply Qle_bool_iff in E | apply Qle_bool_false in E]
           end; simpl; try done; try (apply Qle_bool_iff; lra); try lra.
Qed.

Lemma div_nonneg (a D : num) :
  is_fin a → is_fin D → leb (ofZ 0) a = true → leb (ofZ 1) D = true →
  leb (ofZ 0) (div a D) = true.
Proof.
  destruct a as [| |x|], D as [| |d|]; try done. intros _ _.
  unfold ofZ. rewrite !leb_Fin. unfold inject_Z. intros Hx Hd. unfold div.
  destruct (Qeq_bool d 0) eqn:E; [apply Qeq_bool_iff in E; lra|].
  unfold fin. rewrite leb_Fin, Qred_correct.
  apply Qle_shift_div_l; lra.
Qed.

Section RankFacts.
Variable rv : ResearchValues.
Variable level : num.
Variable research : gmap string num.
Variable dataRate : num.
Hypothesis table_finite : finite_table rv.
Hypothesis counts_finite : finite_counts research.
Hypothesis rate_finite : is_fin dataRate.
Hypothesis rate_nonneg : nonneg dataRate.

Lemma dataRateFactor_nonneg : leb (ofZ 0) (dataRateFactor dataRate) = true.
Proof.
  unfold nonneg, dataRateFactor in *. destruct dataRate as [| |d|]; try done.
  simpl in *. apply Qle_bool_iff in rate_nonneg. apply Qle_bool_iff.
  rewrite !Qred_correct. unfold inject_Z in *.
  apply Qle_shift_div_l; lra.
Qed.

Lemma floor_le_divisor (f : tier → num) :
  (∀ t, is_fin (f t)) →
  leb (ofZ 1) (Math_max_list (f <$> tiers) (ofZ 1)) = true.
Proof.
  intros Hf. destruct (Math_max_list_tiers f) as [[[t Ht] _]|(_ & H & _)]; [|done].
  specialize (Hf t). by rewrite Ht in Hf.
Qed.

Lemma totalImportance_nonneg (t : tier) :
  leb (ofZ 0) (totalImportance rv level research t) = true.
Proof.
  pose proof (is_fin_remaining rv level research table_finite counts_finite) as Hfin.
  pose proof (remaining_nonneg rv level research table_finite counts_finite) as Hpos.
  assert (HD1 : is_fin (maxRemainingRequired rv level research)).
  { apply is_fin_Math_max_list; [|done]. apply Forall_fmap, Forall_forall.
    intros t' _. apply Hfin. }
  assert (HD2 : is_fin (maxRemainingMax rv level research)).
  { apply is_fin_Math_max_list; [|done]. apply Forall_fmap, Forall_forall.
    intros t' _. apply Hfin. }
  assert (H1 : leb (ofZ 1) (maxRemainingRequired rv level research) = true)
    by (apply floor_le_divisor; intros t'; apply Hfin).
  assert (H2 : leb (ofZ 1) (maxRemainingMax rv level research) = true)
    by (apply floor_le_divisor; intros t'; apply Hfin).
  unfold totalImportance. cbv zeta.
  pose proof (div_nonneg _ _ (proj1 (Hfin t)) HD1 (proj1 (Hpos t)) H1) as P1.
  pose proof (div_nonneg _ _ (proj2 (Hfin t)) HD2 (proj2 (Hpos t)) H2) as P2.
  apply add_nonneg; [done|].
  destruct (div (remainingMax rv level research t) _) as [| |q|]; try done.
  apply leb_Fin in P2. unfold mul, fin. apply leb_Fin. rewrite Qred_correct.
  unfold inject_Z in *. lra.
Qed.

(** X17 (a better rank): with finite inputs, base yields and a data rate
    that are not negative, a progress entry whose rank multiplier is at
    least that of another gives every tier at least the effective yield,
    and the mission at least the score, of the other. *)
Theorem better_rank_never_lowers_score (mp mp' : gmap Z Progress) (m : MissionDisplay) :
  finite_yields m →
  nonneg (research1 m) → nonneg (research2 m) →
  nonneg (research3 m) → nonneg (research4 m) →
  is_fin (ToNumber (bonus_of (progress_of mp m))) →
  is_fin (ToNumber (bonus_of (progress_of mp' m))) →
  leb (ToNumber (bonus_of (progress_of mp m)))
      (ToNumber (bonus_of (progress_of mp' m))) = true →
  let s := scoreMission rv level research mp dataRate m in
  let s' := scoreMission rv level research mp' dataRate m in
  leb (r1 s) (r1 s') = true ∧ leb (r2 s) (r2 s') = true ∧
  leb (r3 s) (r3 s') = true ∧ leb (r4 s) (r4 s') = true ∧
  leb (score s) (score s') = true.
Proof.
  intros (F1 & F2 & F3 & F4) N1 N2 N3 N4 Fb Fb' Hb.
  pose proof (is_fin_remaining rv level research table_finite counts_finite) as Hfin.
  pose proof (is_fin_dataRateFactor dataRate rate_finite) as Ff.
  pose proof dataRateFactor_nonneg as Nf.
  set (b := ToNumber (bonus_of (progress_of mp m))) in *.
  set (b' := ToNumber (bonus_of (progress_of mp' m))) in *.
  assert (Hy : ∀ y cap, is_fin y → nonneg y → is_fin cap →
    let e := if isCritical m then y
             else Math_min (mul (mul y b) (dataRateFactor dataRate)) cap in
    let e' := if isCritical m then y
              else Math_min (mul (mul y b') (dataRateFactor dataRate)) cap in
    is_fin e ∧ is_fin e' ∧ leb e e' = true).
  { intros y cap Fy Ny Fc. cbv zeta. destruct (isCritical m).
    - split; [done|]. split; [done|]. by apply leb_refl, is_fin_number.
    - split; [|split].
      + apply is_fin_Math_min; [|done]. by repeat apply is_fin_mul.
      + apply is_fin_Math_min; [|done]. by repeat apply is_fin_mul.
      + apply Math_min_le_mono; [by apply is_fin_number|].
        apply mul_le_mono; try done; try (by apply is_fin_mul).
        by apply mul_le_mono_l. }
  assert (Hcap : ∀ t t', is_fin (add (remainingRequired rv level research t)
                                     (remainingMax rv level research t')))
    by (intros t t'; apply is_fin_add; apply Hfin).
  destruct (Hy (research1 m) _ F1 N1 (Hcap I I)) as (A1 & A1' & L1).
  destruct (Hy (research2 m) _ F2 N2 (Hcap III II)) as (A2 & A2' & L2).
  destruct (Hy (research3 m) _ F3 N3 (Hcap III III)) as (A3 & A3' & L3).
  destruct (Hy (research4 m) _ F4 N4 (Hcap IV IV)) as (A4 & A4' & L4).
  cbn [scoreMission r1 r2 r3 r4 score]. fold b b'.
  split; [done|]. split; [done|]. split; [done|]. split; [done|].
  pose proof (is_fin_totalImportance rv level research table_finite counts_finite) as Fw.
  pose proof totalImportance_nonneg as Nw.
  repeat apply add_le_mono; repeat apply is_fin_add;
    try (apply is_fin_mul; done); by apply mul_le_mono.
Qed.
End RankFacts.

(** Gold against bronze on the sample table. *)
Lemma better_rank_never_lowers_score_witness :
  let rv := sample_table (100, 150)%Z (0, 0)%Z (0, 0)%Z (0, 0)%Z in
  let bronze : gmap Z Progress := ∅ in
  let gold : gmap Z Progress :=
    {[ 1%Z := {| rank := Some "gold"; time := Some (ofZ 1) |} ]} in
  let m := sample_mission 1 false 20 0 0 0 in
  leb (score (scoreMission rv (ofZ 1) ∅ bronze (ofZ 50) m))
      (score (scoreMission rv (ofZ 1) ∅ gold (ofZ 50) m)) = true.
Proof.
  intros rv bronze gold m.
  apply (better_rank_never_lowers_score rv (ofZ 1) ∅ (ofZ 50)); try done.
  intros t. destruct t; repeat constructor.
Defined.

(** ** The table of the active job *)



(** X19 (one row per mission of the active job): the table has exactly one
    row for every mission whose job abbreviation is the active job and no
    other row, whatever the scores are; each row carries the score of its
    mission. *)
Theorem rows_of_active_job rv level research mp dataRate
    (missions : list MissionDisplay) (activeJob : string) :
  let shown := displayedMissions missions activeJob in
  let rows := missionsWithScores rv level research mp dataRate shown in
  mission <$> rows ≡ₚ shown ∧
  length rows = length shown ∧
  (∀ s, s ∈ rows →
     jobAbbreviation (mission s) = activeJob ∧ mission s ∈ missions ∧
     s = scoreMission rv level research mp dataRate (mission s)) ∧
  (∀ m, m ∈ missions → jobAbbreviation m = activeJob →
     scoreMission rv level research mp dataRate m ∈ rows).
Proof.
  intros shown rows.
  assert (Hperm : rows ≡ₚ scoreMission rv level research mp dataRate <$> shown)
    by apply sort_perm.
  split; [|split; [|split]].
  - rewrite Hperm, <- list_fmap_compose. by rewrite list_fmap_id.
  - by rewrite Hperm, length_fmap.
  - intros s (m & Hm & ->)%elem_of_missionsWithScores.
    apply list_elem_of_filter in Hm as [Hjob Hm]. done.
  - intros m Hm Hjob. apply elem_of_missionsWithScores. exists m.
    split; [|done]. by apply list_elem_of_filter.
Qed.

Lemma rows_of_active_job_witness :
  let crp := sample_mission 1 false 30 0 0 0 in
  let bsm := {| id := 2; name := "Other"; cosmocredits := ofZ 0;
                lunarcredits := ofZ 0; research1 := ofZ 5; research2 := ofZ 0;
                research3 := ofZ 0; research4 := ofZ 0; jobAbbreviation := "BSM";
                missionClass := ofZ 2; isCritical := false |} in
  let rv := sample_table (100, 150)%Z (0, 0)%Z (0, 0)%Z (0, 0)%Z in
  let rows := missionsWithScores rv (ofZ 1) ∅ ∅ (ofZ 0)
                (displayedMissions [bsm; crp] "CRP") in
  scoreMission rv (ofZ 1) ∅ ∅ (ofZ 0) crp ∈ rows ∧ length rows = 1%nat.
Proof.
  intros crp bsm rv rows.
  destruct (rows_of_active_job rv (ofZ 1) ∅ ∅ (ofZ 0) [bsm; crp] "CRP")
    as (_ & Hlen & _ & Hin).
  split; [|exact Hlen].
  apply Hin; [|reflexivity]. apply list_elem_of_further, list_elem_of_here.
Defined.

(** ** The two edit handlers together *)

(** X20 (edits of a row): a rank edit and a time edit of the same mission
    give the same entry in either order, holding the new rank and the new
    time; edits of different missions commute; an edit leaves the entries
    of the other missions as they are, and of two time edits, or two rank
    edits, of a mission the later one counts. *)
Theorem edits_compose (prev : gmap Z Progress) (i : Z) (r : string) (v : num) :
  onTimeChange i v (onRankChange i r prev)
    = onRankChange i r (onTimeChange i v prev) ∧
  onTimeChange i v (onRankChange i r prev) !! i
    = Some {| rank := Some r; time := Some v |} ∧
  (∀ j, j ≠ i →
     onTimeChange i v prev !! j = prev !! j ∧
     onRankChange i r prev !! j = prev !! j ∧
     onTimeChange i v (onRankChange j r prev)
       = onRankChange j r (onTimeChange i v prev)) ∧
  (∀ v0, onTimeChange i v (onTimeChange i v0 prev) = onTimeChange i v prev) ∧
  (∀ r0, onRankChange i r (onRankChange i r0 prev) = onRankChange i r prev).
Proof.
  unfold onTimeChange, onRankChange.
  split; [|split; [|split; [|split]]].
  - rewrite !lookup_insert_eq, !insert_insert_eq. simpl.
    by destruct (prev !! i).
  - by rewrite !lookup_insert_eq.
  - intros j Hj. rewrite !lookup_insert_ne by done. split; [done|]. split; [done|].
    by apply insert_insert_ne.
  - intros v0. rewrite lookup_insert_eq, insert_insert_eq. simpl.
    by destruct (prev !! i).
  - intros r0. rewrite lookup_insert_eq, insert_insert_eq. simpl.
    by destruct (prev !! i).
Qed.

Lemma edits_compose_witness :
  let prev : gmap Z Progress :=
    {[ 7%Z := {| rank := Some "gold"; time := Some (ofZ 3) |} ]} in
  onTimeChange 7 (ofZ 9) prev !! 8%Z = None ∧
  onRankChange 8 "silver" (onTimeChange 7 (ofZ 9) prev) !! 7%Z
    = Some {| rank := Some "gold"; time := Some (ofZ 9) |}.
Proof.
  intros prev.
  destruct (edits_compose prev 7 "silver" (ofZ 9)) as (_ & _ & H & _).
  destruct (H 8%Z ltac:(done)) as (H1 & _ & H3).
  split; [exact (eq_trans H1 eq_refl)|].
  rewrite <- H3. reflexivity.
Defined.

(** A full row of 73 cells after two older rows. *)
Lemma requirement_table_last_row_witness :
  let old := (["1"; "Tool"] ++ replicate 71 "1")%list in
  let row := (["3"; "Tool"] ++ replicate 71 "5")%list in
  ∃ rv, parseCosmoToolData decimal_integer [old; old; row] = Some rv ∧
        length (required rv III) = 9%nat ∧ length (max rv IV) = 9%nat.
Proof.
  intros old row.
  destruct (requirement_table_last_row decimal_integer [old; old] row)
    as (_ & _ & rv & Hrv & Hlen).
  exists rv. split; [exact Hrv|].
  assert (H73 : (73 ≤ length row)%nat) by (vm_compute; lia).
  split.
  - exact (proj1 (proj2 (proj2 (Hlen III)) H73)).
  - exact (proj2 (proj2 (proj2 (Hlen IV)) H73)).
Defined.

(** The sample table at level 1: one row in the summary, for tier I. *)
Lemma summary_rows_are_unlocked_tiers_witness :
  let rv := sample_table (100, 150)%Z (0, 0)%Z (0, 0)%Z (0, 0)%Z in
  let research : gmap string num := {[ "I" := ofZ 30 ]} in
  ∃ rows, ResearchSummary (Some rv) (ofZ 1) research = Some rows ∧
          row_tier <$> rows = [I] ∧
          ∀ row, row ∈ rows → row_required row = req rv (ofZ 1) (row_tier row).
Proof.
  intros rv research.
  destruct (summary_rows_are_unlocked_tiers rv (ofZ 1) research ∅ (ofZ 0) [])
    as ((rows & Hrows & Htiers & Hrow) & _).
  exists rows. split; [exact Hrows|]. split; [exact (eq_trans Htiers eq_refl)|].
  intros row Hin. exact (proj1 (Hrow row Hin)).
Defined.
